(** * Vaillant vSMART integration: polling coordinator, merge step, sensors

    A shallow embedding of [custom_components/vaillant_vsmart/entity.py] and
    [custom_components/vaillant_vsmart/sensor.py].

    - Python objects that the code mutates in place ([module.measured.*]) are
      threaded explicitly: a loop over a list of objects returns the list of
      updated objects, also when it stops on an exception.
    - Exceptions are values of [exn]; fallible code returns [Res].
    - The coordinator, the request log of the API client and the entities
      live in a state-and-exception monad [M].
    - The API client is an environment ([World]): it answers the k-th call of
      the integration; nothing is assumed about its answers. *)

From Stdlib Require Import ZArith List String Ascii Bool Lia Permutation.
From Stdlib Require Import Floats.SpecFloat.
From Stdlib Require Import DecimalString.
Import ListNotations.

Open Scope string_scope.
Open Scope list_scope.

(** ** Exceptions and results *)

(** The exception classes the two files raise, catch or can meet.
    [ApiException] stands for every [ApiException] other than
    [RequestUnauthorizedException] (which the code catches first);
    [OtherException] is any class that neither [except] clause names. *)
Inductive exn : Type :=
| RequestUnauthorizedException (msg : string)
| ApiException (msg : string)
| ConfigEntryAuthFailed
| UpdateFailed (msg : string)
| IndexError
| KeyError (key : string)
| AttributeError
| OtherException (msg : string).

Inductive Res (A : Type) : Type :=
| Ok (a : A)
| Err (e : exn).

Arguments Ok {A} a.
Arguments Err {A} e.

Definition is_ok {A} (r : Res A) : bool :=
  match r with Ok _ => true | Err _ => false end.

(** State-and-exception computations over a state [S]: the state that is
    returned with [Err] is the state at the moment the exception is raised. *)
Definition SE (S A : Type) : Type := S -> Res A * S.

Definition ret {S A} (a : A) : SE S A := fun s => (Ok a, s).

Definition raise {S A} (e : exn) : SE S A := fun s => (Err e, s).

Definition bind {S A B} (c : SE S A) (k : A -> SE S B) : SE S B :=
  fun s => match c s with
           | (Ok a, s') => k a s'
           | (Err e, s') => (Err e, s')
           end.

Definition get {S} : SE S S := fun s => (Ok s, s).

Definition modify {S} (f : S -> S) : SE S unit := fun s => (Ok tt, f s).

Definition lift {S A} (r : Res A) : SE S A := fun s => (r, s).

(** [try: c except: h] runs [c]; an exception [e] of [c] is handed to [h]. *)
Definition try_except {S A} (c : SE S A) (h : exn -> SE S A) : SE S A :=
  fun s => match c s with
           | (Ok a, s') => (Ok a, s')
           | (Err e, s') => h e s'
           end.

Notation "x <- c ;; k" := (bind c (fun x => k))
  (at level 61, c at next level, right associativity).
Notation "c ;;; k" := (bind c (fun _ => k))
  (at level 61, right associativity).

(** ** Python lists *)

(** [l[i]] for an index [i >= 0]. *)
Definition getitem {A} (l : list A) (i : nat) : Res A :=
  match nth_error l i with
  | Some x => Ok x
  | None => Err IndexError
  end.

(** [l[z]] for any integer index: a negative index counts from the end. *)
Definition py_index {A} (l : list A) (z : Z) : Res A :=
  let n := Z.of_nat (List.length l) in
  if (0 <=? z)%Z then getitem l (Z.to_nat z)
  else if (- n <=? z)%Z then getitem l (Z.to_nat (n + z))
  else Err IndexError.

(** ** The data model of the client library, as the two files use it *)

Definition float : Type := spec_float.

Record Program : Type := mkProgram {
  program_id : string
}.

Record Measured : Type := mkMeasured {
  temperature : float;
  setpoint_temp : float;
  gas_heating_usage : list float;
  gas_water_usage : list float
}.

Record Module_ : Type := mkModule {
  module_id : string;
  module_name : string;
  firmware : Z;
  battery_percent : Z;
  therm_program_list : list Program;
  measured : Measured
}.

Record Device : Type := mkDevice {
  device_id : string;
  device_type : string;
  modules : list Module_
}.

Record MeasurementItem : Type := mkMeasurementItem {
  value : list float
}.

Inductive MeasurementType : Type :=
| TEMPERATURE
| SETPOINT_TEMPERATURE
| SUM_ENERGY_GAS_HEATING
| SUM_ENERGY_GAS_WATER.

Inductive MeasurementScale : Type :=
| MAX
| DAY.

(** ** The merge step *)

(** [_get_measurement_value]: [measurements[-1]] when the list is not empty,
    then [measure.value[-1]] when that list is not empty, else the default. *)
Definition _get_measurement_value
    (measurements : list MeasurementItem) (default_value : float) : float :=
  let measure :=
    match measurements with
    | [] => None
    | m :: ms => Some (last ms m)
    end in
  match measure with
  | Some item =>
      match value item with
      | [] => default_value
      | v :: vs => last vs v
      end
  | None => default_value
  end.

(** [_get_energy_measurement_value]: the same test, but the whole
    [measure.value] list is returned. *)
Definition _get_energy_measurement_value
    (measurements : list MeasurementItem) (default_value : list float)
    : list float :=
  let measure :=
    match measurements with
    | [] => None
    | m :: ms => Some (last ms m)
    end in
  match measure with
  | Some item =>
      match value item with
      | [] => default_value
      | _ :: _ => value item
      end
  | None => default_value
  end.

(** Assignments to the attributes of [module.measured]. *)
Definition set_temperature (v : float) (m : Module_) : Module_ :=
  mkModule (module_id m) (module_name m) (firmware m) (battery_percent m)
    (therm_program_list m)
    (mkMeasured v (setpoint_temp (measured m))
       (gas_heating_usage (measured m)) (gas_water_usage (measured m))).

Definition set_setpoint_temp (v : float) (m : Module_) : Module_ :=
  mkModule (module_id m) (module_name m) (firmware m) (battery_percent m)
    (therm_program_list m)
    (mkMeasured (temperature (measured m)) v
       (gas_heating_usage (measured m)) (gas_water_usage (measured m))).

Definition set_gas_heating_usage (v : list float) (m : Module_) : Module_ :=
  mkModule (module_id m) (module_name m) (firmware m) (battery_percent m)
    (therm_program_list m)
    (mkMeasured (temperature (measured m)) (setpoint_temp (measured m))
       v (gas_water_usage (measured m))).

Definition set_gas_water_usage (v : list float) (m : Module_) : Module_ :=
  mkModule (module_id m) (module_name m) (firmware m) (battery_percent m)
    (therm_program_list m)
    (mkMeasured (temperature (measured m)) (setpoint_temp (measured m))
       (gas_heating_usage (measured m)) v).

Definition set_modules (ms : list Module_) (d : Device) : Device :=
  mkDevice (device_id d) (device_type d) ms.

(** The body of the inner loop of [_update_measured_data], run on one module
    object with the counter at [i]; it returns the counter after [i += 2]. *)
Definition update_module
    (measurements energy_usage : list (list MeasurementItem)) (i : nat)
    : SE Module_ nat :=
  m0 <- lift (getitem measurements i) ;;
  module <- get ;;
  modify (set_temperature
            (_get_measurement_value m0 (temperature (measured module)))) ;;;
  m1 <- lift (getitem measurements (i + 1)) ;;
  module <- get ;;
  modify (set_setpoint_temp
            (_get_measurement_value m1 (setpoint_temp (measured module)))) ;;;
  e0 <- lift (getitem energy_usage i) ;;
  module <- get ;;
  modify (set_gas_heating_usage
            (_get_energy_measurement_value e0
               (gas_heating_usage (measured module)))) ;;;
  e1 <- lift (getitem energy_usage (i + 1)) ;;
  module <- get ;;
  modify (set_gas_water_usage
            (_get_energy_measurement_value e1
               (gas_water_usage (measured module)))) ;;;
  ret (i + 2).

(** A [for] loop that mutates the objects of a list in place while it
    threads a counter: the objects after the one that raises are untouched. *)
Fixpoint for_each {X} (body : nat -> SE X nat) (i : nat) : SE (list X) nat :=
  fun xs =>
    match xs with
    | [] => (Ok i, [])
    | x :: rest =>
        match body i x with
        | (Ok i', x') =>
            let (r, rest') := for_each body i' rest in (r, x' :: rest')
        | (Err e, x') => (Err e, x' :: rest)
        end
    end.

(** The body of the outer loop: the inner loop over [device.modules]. *)
Definition update_device
    (measurements energy_usage : list (list MeasurementItem)) (i : nat)
    : SE Device nat :=
  fun device =>
    let (r, ms) :=
      for_each (update_module measurements energy_usage) i (modules device) in
    (r, set_modules ms device).

(** [_update_measured_data]: the result is the exception status together
    with the device objects as the loops left them. *)
Definition _update_measured_data
    (devices : list Device)
    (measurements energy_usage : list (list MeasurementItem))
    : Res unit * list Device :=
  let (r, devices') :=
    for_each (update_device measurements energy_usage) 0 devices in
  (match r with Ok _ => Ok tt | Err e => Err e end, devices').

(** ** Python dictionaries *)

(** A [dict] with string keys keeps its keys in insertion order; assigning
    to a key that is present replaces the value where the key stands. *)
Definition dict (V : Type) : Type := list (string * V).

Fixpoint dict_set {V} (k : string) (v : V) (d : dict V) : dict V :=
  match d with
  | [] => [(k, v)]
  | (k', v') :: rest =>
      if String.eqb k' k then (k', v) :: rest
      else (k', v') :: dict_set k v rest
  end.

Fixpoint dict_lookup {V} (d : dict V) (k : string) : option V :=
  match d with
  | [] => None
  | (k', v') :: rest => if String.eqb k' k then Some v' else dict_lookup rest k
  end.

(** [d[k]] *)
Definition dict_get {V} (d : dict V) (k : string) : Res V :=
  match dict_lookup d k with
  | Some v => Ok v
  | None => Err (KeyError k)
  end.

(** [d.values()] *)
Definition dict_values {V} (d : dict V) : list V := map snd d.

(** [{k: v for ...}] over the key/value pairs in iteration order. *)
Definition dict_comprehension {V} (kvs : list (string * V)) : dict V :=
  fold_left (fun d kv => dict_set (fst kv) (snd kv) d) kvs [].

(** ** The API client and the coordinator *)

Record Request : Type := mkRequest {
  req_device_id : string;
  req_module_id : string;
  req_type : MeasurementType;
  req_scale : MeasurementScale;
  req_start_time : Z
}.

(** A call of a client method. *)
Inductive Call : Type :=
| GetThermostatsData
| GetMeasure (r : Request).

(** The client answers a call by its position among all the calls made so
    far, so that the same request may be answered differently each time. *)
Record ThermostatClient : Type := mkClient {
  async_get_thermostats_data : nat -> Res (list Device);
  async_get_measure : nat -> Request -> Res (list MeasurementItem)
}.

(** [VaillantData]: the lookup tables handed to the entities. *)
Record VaillantData : Type := mkVaillantData {
  vd_client : ThermostatClient;
  vd_devices : dict Device;
  vd_modules : dict Module_;
  vd_programs : dict Program
}.

(** The (device, module) pairs of [for device in devices for module in
    device.modules], in iteration order. *)
Definition device_modules (devices : list Device) : list (Device * Module_) :=
  flat_map (fun device => map (fun module => (device, module)) (modules device))
    devices.

Definition all_modules (devices : list Device) : list Module_ :=
  flat_map modules devices.

Definition all_programs (devices : list Device) : list Program :=
  flat_map (fun device => flat_map therm_program_list (modules device)) devices.

(** [VaillantData.__init__] *)
Definition VaillantData_init
    (client : ThermostatClient) (devices : list Device) : VaillantData :=
  mkVaillantData client
    (dict_comprehension (map (fun device => (device_id device, device)) devices))
    (dict_comprehension
       (map (fun module => (module_id module, module)) (all_modules devices)))
    (dict_comprehension
       (map (fun program => (program_id program, program))
          (all_programs devices))).

(** What is outside the integration: the client, the clock ([datetime.now()]
    in microseconds, read after [k] calls have been made) and, for a
    [gather] in which several tasks raise, which of them raises first. *)
Record World : Type := mkWorld {
  _client : ThermostatClient;
  datetime_now : nat -> Z;
  first_raised : nat
}.

(** The state: [coordinator.data] ([None] before the first successful
    refresh) and the log of the calls made on the client. *)
Record State : Type := mkState {
  coordinator_data : option VaillantData;
  requests : list Call
}.

Definition M : Type -> Type := SE State.

Definition log_call (c : Call) (st : State) : State :=
  mkState (coordinator_data st) (requests st ++ [c]).

(** [await self._client.async_get_thermostats_data()] *)
Definition call_get_thermostats_data (w : World) : M (list Device) :=
  fun st =>
    (async_get_thermostats_data (_client w) (List.length (requests st)),
     log_call GetThermostatsData st).

(** [self._client.async_get_measure(...)]: the call is made and a task is
    returned, which holds the outcome that awaiting it will give. *)
Definition call_get_measure (w : World) (r : Request)
    : M (Res (list MeasurementItem)) :=
  fun st =>
    (Ok (async_get_measure (_client w) (List.length (requests st)) r),
     log_call (GetMeasure r) st).

Fixpoint failures {A} (tasks : list (Res A)) : list exn :=
  match tasks with
  | [] => []
  | Ok _ :: rest => failures rest
  | Err e :: rest => e :: failures rest
  end.

Fixpoint successes {A} (tasks : list (Res A)) : list A :=
  match tasks with
  | [] => []
  | Ok a :: rest => a :: successes rest
  | Err _ :: rest => successes rest
  end.

(** [asyncio.gather] on the tasks: the results in the order of the tasks when
    none raises, else the exception of the task that raises first, which is
    the [first]-th failing task (the first in list order when [first] is out
    of range). *)
Definition gather {A} (first : nat) (tasks : list (Res A)) : Res (list A) :=
  match failures tasks with
  | [] => Ok (successes tasks)
  | e :: es => Err (nth first (e :: es) e)
  end.

(** A [for] loop that threads a local variable. *)
Fixpoint foldM {S A B} (f : B -> A -> SE S B) (l : list A) (b : B) : SE S B :=
  match l with
  | [] => ret b
  | a :: rest => b' <- f b a ;; foldM f rest b'
  end.

Definition timedelta_hours_1 : Z := 3600000000.
Definition timedelta_days_7 : Z := 604800000000.

(** [_get_temperature_measurements_for_all_devices] *)
Definition _get_temperature_measurements_for_all_devices
    (w : World) (devices : list Device) : M (list (list MeasurementItem)) :=
  st <- get ;;
  let start_time :=
    (datetime_now w (List.length (requests st)) - timedelta_hours_1)%Z in
  temperature_tasks <-
    foldM (fun tasks device =>
      foldM (fun tasks module =>
        current_temp_task <-
          call_get_measure w
            (mkRequest (device_id device) (module_id module)
               TEMPERATURE MAX start_time) ;;
        let tasks := tasks ++ [current_temp_task] in
        setpoint_temp_task <-
          call_get_measure w
            (mkRequest (device_id device) (module_id module)
               SETPOINT_TEMPERATURE MAX start_time) ;;
        ret (tasks ++ [setpoint_temp_task]))
        (modules device) tasks)
      devices [] ;;
  lift (gather (first_raised w) temperature_tasks).

(** [_get_energy_usage_measurements_for_all_devices] *)
Definition _get_energy_usage_measurements_for_all_devices
    (w : World) (devices : list Device) : M (list (list MeasurementItem)) :=
  st <- get ;;
  let start_time :=
    (datetime_now w (List.length (requests st)) - timedelta_days_7)%Z in
  gas_usage_tasks <-
    foldM (fun tasks device =>
      foldM (fun tasks module =>
        gas_heating_task <-
          call_get_measure w
            (mkRequest (device_id device) (module_id module)
               SUM_ENERGY_GAS_HEATING DAY start_time) ;;
        let tasks := tasks ++ [gas_heating_task] in
        gas_water_task <-
          call_get_measure w
            (mkRequest (device_id device) (module_id module)
               SUM_ENERGY_GAS_WATER DAY start_time) ;;
        ret (tasks ++ [gas_water_task]))
        (modules device) tasks)
      devices [] ;;
  lift (gather (first_raised w) gas_usage_tasks).

(** The two [except] clauses of [_update_method]; an exception of another
    class is not caught. *)
Definition on_exception {A} (ex : exn) : M A :=
  match ex with
  | RequestUnauthorizedException _ => raise ConfigEntryAuthFailed
  | ApiException msg =>
      raise (UpdateFailed ("Error communicating with API: " ++ msg))
  | _ => raise ex
  end.

(** [_update_method] (the two [_debug_log] calls only write to the log of
    the logger and are left out). *)
Definition _update_method (w : World) : M VaillantData :=
  try_except
    (devices <- call_get_thermostats_data w ;;
     measurements <- _get_temperature_measurements_for_all_devices w devices ;;
     energy_usage <- _get_energy_usage_measurements_for_all_devices w devices ;;
     devices <-
       (fun st =>
          let (r, devices') :=
            _update_measured_data devices measurements energy_usage in
          (match r with Ok _ => Ok devices' | Err e => Err e end, st)) ;;
     ret (VaillantData_init (_client w) devices))
    on_exception.

(** ** Entities *)

Inductive EntityClass : Type :=
| BatterySensor
| GasWaterSensor
| GasHeatingSensor.

(** An entity object: its class and the three ids that
    [VaillantEntity.__init__] stores ([program_id] defaults to [None]). *)
Record Entity : Type := mkEntity {
  entity_class : EntityClass;
  _device_id : string;
  _module_id : string;
  _program_id : option string
}.

(** [str] of an [int]. *)
Definition str_int (z : Z) : string := NilZero.string_of_int (Z.to_int z).

(** [device_info] returns a dict with these five keys. *)
Record DeviceInfo : Type := mkDeviceInfo {
  identifiers : list (string * string);
  name_ : string;
  sw_version : Z;
  manufacturer : string;
  via_device : string * string
}.

Module VaillantEntity.

(** [self.coordinator.data], on which an attribute is then read. *)
Definition data : M VaillantData :=
  st <- get ;;
  match coordinator_data st with
  | Some d => ret d
  | None => raise AttributeError
  end.

Definition _client (self : Entity) : M ThermostatClient :=
  d <- data ;; ret (vd_client d).

Definition _device (self : Entity) : M Device :=
  d <- data ;; lift (dict_get (vd_devices d) (_device_id self)).

Definition _module (self : Entity) : M Module_ :=
  d <- data ;; lift (dict_get (vd_modules d) (_module_id self)).

Definition _program (self : Entity) : M (option Program) :=
  match _program_id self with
  | None => ret None
  | Some pid =>
      d <- data ;;
      p <- lift (dict_get (vd_programs d) pid) ;;
      ret (Some p)
  end.

Section Domain.
(** [DOMAIN] of [const.py]. *)
Variable DOMAIN : string.

Definition device_info (self : Entity) : M DeviceInfo :=
  m1 <- _module self ;;
  m2 <- _module self ;;
  m3 <- _module self ;;
  d1 <- _device self ;;
  d2 <- _device self ;;
  ret (mkDeviceInfo [(DOMAIN, module_id m1)] (module_name m2) (firmware m3)
         (device_type d1) (DOMAIN, device_id d2)).
End Domain.

End VaillantEntity.

Module VaillantBatterySensor.

Definition unique_id (self : Entity) : M string :=
  m <- VaillantEntity._module self ;; ret (module_id m).

Definition name (self : Entity) : M string :=
  m <- VaillantEntity._module self ;; ret (module_name m ++ " Battery")%string.

Definition native_value (self : Entity) : M string :=
  m <- VaillantEntity._module self ;; ret (str_int (battery_percent m)).

End VaillantBatterySensor.

Section FloatFormat.
(** [str] of a [float] (the shortest decimal that reads back as the same
    float) is not computed here: any formatting function will do. *)
Variable str_float : float -> string.

(** [str] of a list of floats. *)
Definition str_list (l : list float) : string :=
  "[" ++ String.concat ", " (map str_float l) ++ "]".

(** [str(l[l.__len__() - 1])], where the two occurrences of [l] are read
    from the objects [m1] and [m2]. *)
Definition str_last_of (l1 l2 : list float) : Res string :=
  match py_index l1 (Z.of_nat (List.length l2) - 1) with
  | Ok v => Ok (str_float v)
  | Err e => Err e
  end.
End FloatFormat.

Module VaillantGasWaterSensor.

Definition unique_id (self : Entity) : M string :=
  m <- VaillantEntity._module self ;; ret (module_id m ++ "_gas_water")%string.

Definition name (self : Entity) : M string :=
  m <- VaillantEntity._module self ;;
  ret (module_name m ++ " Water Gas usage")%string.

Definition native_value (str_float : float -> string) (self : Entity)
    : M string :=
  m1 <- VaillantEntity._module self ;;
  m2 <- VaillantEntity._module self ;;
  lift (str_last_of str_float
          (gas_water_usage (measured m1)) (gas_water_usage (measured m2))).

Definition extra_state_attributes (str_float : float -> string)
    (self : Entity) : M (list (string * string)) :=
  m <- VaillantEntity._module self ;;
  ret [("historical_values", str_list str_float (gas_water_usage (measured m)))].

End VaillantGasWaterSensor.

Module VaillantGasHeatingSensor.

Definition unique_id (self : Entity) : M string :=
  m <- VaillantEntity._module self ;; ret (module_id m ++ "_gas_heating")%string.

Definition name (self : Entity) : M string :=
  m <- VaillantEntity._module self ;;
  ret (module_name m ++ " Heating Gas usage")%string.

Definition native_value (str_float : float -> string) (self : Entity)
    : M string :=
  m1 <- VaillantEntity._module self ;;
  m2 <- VaillantEntity._module self ;;
  lift (str_last_of str_float
          (gas_heating_usage (measured m1))
          (gas_heating_usage (measured m2))).

Definition extra_state_attributes (str_float : float -> string)
    (self : Entity) : M (list (string * string)) :=
  m <- VaillantEntity._module self ;;
  ret [("historical_values",
        str_list str_float (gas_heating_usage (measured m)))].

End VaillantGasHeatingSensor.

(** One list comprehension of [async_setup_entry]: an entity of class [c]
    for every module of every device of [coordinator.data.devices.values()]. *)
Definition sensors_of (c : EntityClass) : M (list Entity) :=
  d <- VaillantEntity.data ;;
  ret (flat_map
         (fun device =>
            map (fun module =>
                   mkEntity c (device_id device) (module_id module) None)
              (modules device))
         (dict_values (vd_devices d))).

(** [async_setup_entry]: the result is the list given to
    [async_add_devices]. *)
Definition async_setup_entry : M (list Entity) :=
  new_devices <- sensors_of BatterySensor ;;
  l <- sensors_of GasWaterSensor ;;
  let new_devices := new_devices ++ l in
  l <- sensors_of GasHeatingSensor ;;
  let new_devices := new_devices ++ l in
  ret new_devices.

(** * Properties *)

Ltac unfold_se :=
  unfold bind, ret, lift, get, modify, raise, try_except in *.

(** ** Python lists *)

Lemma getitem_Ok {A} (l : list A) (i : nat) (x : A) :
  getitem l i = Ok x <-> nth_error l i = Some x.
Proof.
  unfold getitem. destruct (nth_error l i); split; intro H;
    inversion H; subst; reflexivity.
Qed.

Lemma getitem_lt {A} (l : list A) (i : nat) (x : A) :
  getitem l i = Ok x -> i < List.length l.
Proof.
  intro H. apply getitem_Ok in H. apply nth_error_Some. congruence.
Qed.

Lemma getitem_nth {A} (l : list A) (i : nat) (d : A) :
  i < List.length l -> getitem l i = Ok (nth i l d).
Proof.
  intro H. unfold getitem. rewrite (nth_error_nth' l d H). reflexivity.
Qed.

(** ** The merge step, module by module *)

(** What the loop body makes of a module when the counter is at [i] and the
    four lists it reads exist. *)
Definition merged_module
    (measurements energy_usage : list (list MeasurementItem)) (i : nat)
    (m : Module_) : Module_ :=
  mkModule (module_id m) (module_name m) (firmware m) (battery_percent m)
    (therm_program_list m)
    (mkMeasured
       (_get_measurement_value (nth i measurements [])
          (temperature (measured m)))
       (_get_measurement_value (nth (i + 1) measurements [])
          (setpoint_temp (measured m)))
       (_get_energy_measurement_value (nth i energy_usage [])
          (gas_heating_usage (measured m)))
       (_get_energy_measurement_value (nth (i + 1) energy_usage [])
          (gas_water_usage (measured m)))).

Fixpoint merged_modules
    (measurements energy_usage : list (list MeasurementItem)) (i : nat)
    (l : list Module_) : list Module_ :=
  match l with
  | [] => []
  | m :: rest =>
      merged_module measurements energy_usage i m
      :: merged_modules measurements energy_usage (i + 2) rest
  end.

Fixpoint merged_devices
    (measurements energy_usage : list (list MeasurementItem)) (i : nat)
    (l : list Device) : list Device :=
  match l with
  | [] => []
  | d :: rest =>
      set_modules (merged_modules measurements energy_usage i (modules d)) d
      :: merged_devices measurements energy_usage
           (i + 2 * List.length (modules d)) rest
  end.

(** The fields of a module and of a device that are not measured values. *)
Definition module_frame (m : Module_)
    : string * string * Z * Z * list Program :=
  (module_id m, module_name m, firmware m, battery_percent m,
   therm_program_list m).

Definition device_frame (d : Device)
    : string * string * list (string * string * Z * Z * list Program) :=
  (device_id d, device_type d, map module_frame (modules d)).

Section Merge.
Variables measurements energy_usage : list (list MeasurementItem).

Lemma update_module_Ok (i j : nat) (m m' : Module_) :
  update_module measurements energy_usage i m = (Ok j, m') ->
  j = i + 2 /\ m' = merged_module measurements energy_usage i m /\
  i + 1 < List.length measurements /\ i + 1 < List.length energy_usage.
Proof.
  unfold update_module. unfold_se.
  destruct (getitem measurements i) as [m0|] eqn:E0; [|discriminate].
  destruct (getitem measurements (i + 1)) as [m1|] eqn:E1; [|discriminate].
  destruct (getitem energy_usage i) as [e0|] eqn:E2; [|discriminate].
  destruct (getitem energy_usage (i + 1)) as [e1|] eqn:E3; [|discriminate].
  intro H. inversion H; subst; clear H.
  pose proof (getitem_lt _ _ _ E1). pose proof (getitem_lt _ _ _ E3).
  repeat split; try assumption.
  unfold merged_module.
  apply getitem_Ok in E0, E1, E2, E3.
  rewrite (nth_error_nth _ _ [] E0), (nth_error_nth _ _ [] E1),
    (nth_error_nth _ _ [] E2), (nth_error_nth _ _ [] E3).
  reflexivity.
Qed.

Lemma update_module_in_range (i : nat) (m : Module_) :
  i + 1 < List.length measurements -> i + 1 < List.length energy_usage ->
  update_module measurements energy_usage i m
  = (Ok (i + 2), merged_module measurements energy_usage i m).
Proof.
  intros Hm He. unfold update_module. unfold_se.
  rewrite (getitem_nth measurements i []) by lia.
  rewrite (getitem_nth measurements (i + 1) []) by lia.
  rewrite (getitem_nth energy_usage i []) by lia.
  rewrite (getitem_nth energy_usage (i + 1) []) by lia.
  reflexivity.
Qed.

(** Whatever happens, the loop body writes to [module.measured] only. *)
Lemma update_module_frame (i : nat) (m : Module_) :
  module_frame (snd (update_module measurements energy_usage i m))
  = module_frame m.
Proof.
  unfold update_module. unfold_se.
  destruct (getitem measurements i); [|reflexivity].
  destruct (getitem measurements (i + 1)); [|reflexivity].
  destruct (getitem energy_usage i); [|reflexivity].
  destruct (getitem energy_usage (i + 1)); reflexivity.
Qed.

Lemma for_each_modules_Ok (l : list Module_) :
  forall i j l',
    for_each (update_module measurements energy_usage) i l = (Ok j, l') ->
    j = i + 2 * List.length l /\
    l' = merged_modules measurements energy_usage i l /\
    (l <> [] -> j <= List.length measurements /\
                j <= List.length energy_usage).
Proof.
  induction l as [|m rest IH]; intros i j l' H; simpl in H.
  - inversion H; subst. simpl. repeat split; try lia; congruence.
  - destruct (update_module measurements energy_usage i m) as [[i'|e] m']
      eqn:Em; [|discriminate].
    destruct (for_each _ i' rest) as [r rest'] eqn:Er.
    inversion H; subst; clear H.
    apply update_module_Ok in Em. destruct Em as (-> & -> & Hm & He).
    apply IH in Er. destruct Er as (-> & -> & Hr).
    simpl. split; [lia|]. split; [reflexivity|]. intros _.
    destruct rest as [|m2 rest].
    + simpl. lia.
    + assert (m2 :: rest <> []) as Hne by discriminate.
      apply Hr in Hne. lia.
Qed.

Lemma for_each_modules_in_range (l : list Module_) :
  forall i,
    i + 2 * List.length l <= List.length measurements ->
    i + 2 * List.length l <= List.length energy_usage ->
    for_each (update_module measurements energy_usage) i l
    = (Ok (i + 2 * List.length l),
       merged_modules measurements energy_usage i l).
Proof.
  induction l as [|m rest IH]; intros i Hm He; simpl in *.
  - f_equal. f_equal. lia.
  - rewrite update_module_in_range by lia.
    rewrite IH by lia. f_equal. f_equal. lia.
Qed.

Lemma for_each_devices_Ok (l : list Device) :
  forall i j l',
    for_each (update_device measurements energy_usage) i l = (Ok j, l') ->
    j = i + 2 * List.length (all_modules l) /\
    l' = merged_devices measurements energy_usage i l /\
    (all_modules l <> [] -> j <= List.length measurements /\
                            j <= List.length energy_usage).
Proof.
  induction l as [|d rest IH]; intros i j l' H; simpl in H.
  - inversion H; subst. simpl. repeat split; try lia; congruence.
  - unfold update_device at 1 in H.
    destruct (for_each (update_module _ _) i (modules d)) as [[i'|e] ms']
      eqn:Em; [|discriminate].
    destruct (for_each (update_device _ _) i' rest) as [r rest'] eqn:Er.
    inversion H; subst; clear H.
    apply for_each_modules_Ok in Em. destruct Em as (-> & -> & Hm).
    apply IH in Er. destruct Er as (-> & -> & Hr).
    unfold all_modules in *. simpl. rewrite length_app.
    split; [lia|]. split; [reflexivity|]. intros Hne.
    destruct (flat_map modules rest) as [|m2 r2] eqn:Erest.
    + rewrite app_nil_r in Hne. apply Hm in Hne. simpl. lia.
    + assert (m2 :: r2 <> []) as Hne2 by discriminate.
      apply Hr in Hne2. lia.
Qed.

Lemma for_each_devices_in_range (l : list Device) :
  forall i,
    i + 2 * List.length (all_modules l) <= List.length measurements ->
    i + 2 * List.length (all_modules l) <= List.length energy_usage ->
    for_each (update_device measurements energy_usage) i l
    = (Ok (i + 2 * List.length (all_modules l)),
       merged_devices measurements energy_usage i l).
Proof.
  induction l as [|d rest IH]; intros i Hm He.
  - simpl. f_equal. f_equal. lia.
  - unfold all_modules in *. simpl in *. rewrite length_app in *.
    unfold update_device at 1.
    rewrite for_each_modules_in_range by lia.
    rewrite IH by lia. f_equal. f_equal. lia.
Qed.

Lemma merged_modules_app (a b : list Module_) :
  forall i,
    merged_modules measurements energy_usage i (a ++ b)
    = merged_modules measurements energy_usage i a
      ++ merged_modules measurements energy_usage
           (i + 2 * List.length a) b.
Proof.
  induction a as [|m a IH]; intro i; simpl.
  - f_equal. lia.
  - rewrite IH. do 3 f_equal. lia.
Qed.

Lemma all_modules_merged_devices (l : list Device) :
  forall i,
    all_modules (merged_devices measurements energy_usage i l)
    = merged_modules measurements energy_usage i (all_modules l).
Proof.
  unfold all_modules.
  induction l as [|d rest IH]; intro i; simpl.
  - reflexivity.
  - rewrite merged_modules_app, IH. reflexivity.
Qed.

Lemma nth_error_merged_modules (l : list Module_) :
  forall i k,
    nth_error (merged_modules measurements energy_usage i l) k
    = option_map (merged_module measurements energy_usage (i + 2 * k))
        (nth_error l k).
Proof.
  induction l as [|m rest IH]; intros i k.
  - destruct k; reflexivity.
  - destruct k as [|k]; simpl.
    + do 3 f_equal. lia.
    + rewrite IH. do 2 f_equal. lia.
Qed.

(** A merge that does not raise has read every list it needed and has
    produced [merged_devices]. *)
Lemma update_measured_data_Ok (devices devices' : list Device) :
  _update_measured_data devices measurements energy_usage
  = (Ok tt, devices') ->
  devices' = merged_devices measurements energy_usage 0 devices /\
  (all_modules devices <> [] ->
   2 * List.length (all_modules devices) <= List.length measurements /\
   2 * List.length (all_modules devices) <= List.length energy_usage).
Proof.
  unfold _update_measured_data.
  destruct (for_each _ 0 devices) as [[j|e] l'] eqn:E; [|discriminate].
  intro H. inversion H; subst; clear H.
  apply for_each_devices_Ok in E. destruct E as (-> & -> & Hr).
  split; [reflexivity|exact Hr].
Qed.

Lemma update_measured_data_in_range (devices : list Device) :
  2 * List.length (all_modules devices) <= List.length measurements ->
  2 * List.length (all_modules devices) <= List.length energy_usage ->
  _update_measured_data devices measurements energy_usage
  = (Ok tt, merged_devices measurements energy_usage 0 devices).
Proof.
  intros Hm He. unfold _update_measured_data.
  rewrite for_each_devices_in_range by (simpl; lia). reflexivity.
Qed.

End Merge.

(** ** Which sample the merge writes *)

(** No new sample in a fetched list: the list is empty, or the value list of
    its last measurement item is empty. *)
Definition no_new_sample (l : list MeasurementItem) : Prop :=
  l = [] \/ exists l0 item, l = l0 ++ [item] /\ value item = [].

(** The last measurement item of a fetched list carries the values [vs],
    and there is at least one. *)
Definition latest_values (l : list MeasurementItem) (vs : list float) : Prop :=
  exists l0 item, l = l0 ++ [item] /\ value item = vs /\ vs <> [].

(** [v] is the last value of the last measurement item of a fetched list. *)
Definition latest_value (l : list MeasurementItem) (v : float) : Prop :=
  exists vs0, latest_values l (vs0 ++ [v]).

Lemma last_item_snoc {A} (l0 : list A) (x : A) :
  match l0 ++ [x] with
  | [] => None
  | m :: ms => Some (last ms m)
  end = Some x.
Proof.
  destruct l0 as [|a l0]; simpl; [reflexivity|].
  rewrite last_last. reflexivity.
Qed.

Lemma get_measurement_value_keep l d :
  no_new_sample l -> _get_measurement_value l d = d.
Proof.
  intros [->|(l0 & item & -> & Hv)]; [reflexivity|].
  unfold _get_measurement_value. rewrite last_item_snoc, Hv. reflexivity.
Qed.

Lemma get_measurement_value_latest l d v :
  latest_value l v -> _get_measurement_value l d = v.
Proof.
  intros (vs0 & l0 & item & -> & Hv & _).
  unfold _get_measurement_value. rewrite last_item_snoc, Hv.
  destruct vs0 as [|a vs0]; simpl; [reflexivity|].
  apply last_last.
Qed.

Lemma get_energy_measurement_value_keep l d :
  no_new_sample l -> _get_energy_measurement_value l d = d.
Proof.
  intros [->|(l0 & item & -> & Hv)]; [reflexivity|].
  unfold _get_energy_measurement_value. rewrite last_item_snoc, Hv.
  reflexivity.
Qed.

Lemma get_energy_measurement_value_latest l d vs :
  latest_values l vs -> _get_energy_measurement_value l d = vs.
Proof.
  intros (l0 & item & -> & Hv & Hne).
  unfold _get_energy_measurement_value. rewrite last_item_snoc, Hv.
  destruct vs; [congruence|reflexivity].
Qed.

(** The module at position [k] of a merge that does not raise: the four
    lists it read and what it became. *)
Lemma merged_module_at ms es ds ds' k m :
  _update_measured_data ds ms es = (Ok tt, ds') ->
  nth_error (all_modules ds) k = Some m ->
  nth_error (all_modules ds') k = Some (merged_module ms es (2 * k) m) /\
  nth_error ms (2 * k) = Some (nth (2 * k) ms []) /\
  nth_error ms (2 * k + 1) = Some (nth (2 * k + 1) ms []) /\
  nth_error es (2 * k) = Some (nth (2 * k) es []) /\
  nth_error es (2 * k + 1) = Some (nth (2 * k + 1) es []).
Proof.
  intros H Hk.
  apply update_measured_data_Ok in H. destruct H as (-> & Hlen).
  assert (k < List.length (all_modules ds)) as Hlt
    by (apply nth_error_Some; congruence).
  assert (all_modules ds <> []) as Hne
    by (intro E; rewrite E in Hlt; simpl in Hlt; lia).
  apply Hlen in Hne. destruct Hne as [Hm He].
  rewrite all_modules_merged_devices, nth_error_merged_modules, Hk.
  split; [reflexivity|].
  repeat split; apply nth_error_nth'; lia.
Qed.

(** What the merge did to the measured values of a module [m], now [m'],
    from the four fetched lists [t], [s], [h], [g]: each value is the latest
    fetched one, or the old one when no new sample came. *)
Definition overwritten_or_kept
    (t s h g : list MeasurementItem) (m m' : Module_) : Prop :=
  (forall v, latest_value t v -> temperature (measured m') = v) /\
  (no_new_sample t -> temperature (measured m') = temperature (measured m)) /\
  (forall v, latest_value s v -> setpoint_temp (measured m') = v) /\
  (no_new_sample s ->
   setpoint_temp (measured m') = setpoint_temp (measured m)) /\
  (forall vs, latest_values h vs -> gas_heating_usage (measured m') = vs) /\
  (no_new_sample h ->
   gas_heating_usage (measured m') = gas_heating_usage (measured m)) /\
  (forall vs, latest_values g vs -> gas_water_usage (measured m') = vs) /\
  (no_new_sample g ->
   gas_water_usage (measured m') = gas_water_usage (measured m)).

(** ** Sample data *)

Definition f20_5 : float := S754_finite false 41 (-1).
Definition f21 : float := S754_finite false 21 0.
Definition f19 : float := S754_finite false 19 0.
Definition f100 : float := S754_finite false 100 0.
Definition f250 : float := S754_finite false 250 0.
Definition f300 : float := S754_finite false 300 0.

Definition sample_module : Module_ :=
  mkModule "m1" "Living room" 52 87 [mkProgram "p1"]
    (mkMeasured f19 f19 [] [f100]).

Definition sample_device : Device :=
  mkDevice "d1" "NAVaillant" [sample_module].

(** Temperature answers: one item with two values, and an empty list. *)
Definition sample_measurements : list (list MeasurementItem) :=
  [[mkMeasurementItem [f20_5; f21]]; []].

(** Energy answers: one item with two daily values, and one item without
    values. *)
Definition sample_energy_usage : list (list MeasurementItem) :=
  [[mkMeasurementItem [f250; f300]]; [mkMeasurementItem []]].

Definition sample_merged_module : Module_ :=
  mkModule "m1" "Living room" 52 87 [mkProgram "p1"]
    (mkMeasured f21 f19 [f250; f300] [f100]).

(** At the level of the merge alone: in a merge that does not raise, each
    of the four measured values of each module is overwritten from the
    latest measurement item of the list given for it (its last value for the
    two temperatures, its value list for the two gas usages), and is left as
    it was in the device list given to the merge when no new sample came. *)
Theorem merge_overwrites_or_keeps ms es ds ds' k m :
  _update_measured_data ds ms es = (Ok tt, ds') ->
  nth_error (all_modules ds) k = Some m ->
  exists m' t s h g,
    nth_error (all_modules ds') k = Some m' /\
    nth_error ms (2 * k) = Some t /\
    nth_error ms (2 * k + 1) = Some s /\
    nth_error es (2 * k) = Some h /\
    nth_error es (2 * k + 1) = Some g /\
    overwritten_or_kept t s h g m m'.
Proof.
  intros H Hk.
  destruct (merged_module_at _ _ _ _ _ _ H Hk) as (Hm' & Ht & Hs & Hh & Hg).
  exists (merged_module ms es (2 * k) m), (nth (2 * k) ms []),
    (nth (2 * k + 1) ms []), (nth (2 * k) es []), (nth (2 * k + 1) es []).
  repeat (split; [assumption|]).
  unfold overwritten_or_kept. simpl.
  repeat split; intros;
    auto using get_measurement_value_keep, get_measurement_value_latest,
      get_energy_measurement_value_keep, get_energy_measurement_value_latest.
Qed.

Lemma merge_overwrites_or_keeps_witness :
  _update_measured_data [sample_device] sample_measurements sample_energy_usage
  = (Ok tt, [mkDevice "d1" "NAVaillant" [sample_merged_module]]) /\
  nth_error (all_modules [sample_device]) 0 = Some sample_module /\
  exists m' t s h g,
    nth_error
      (all_modules [mkDevice "d1" "NAVaillant" [sample_merged_module]]) 0
    = Some m' /\
    nth_error sample_measurements (2 * 0) = Some t /\
    nth_error sample_measurements (2 * 0 + 1) = Some s /\
    nth_error sample_energy_usage (2 * 0) = Some h /\
    nth_error sample_energy_usage (2 * 0 + 1) = Some g /\
    overwritten_or_kept t s h g sample_module m'.
Proof.
  split; [reflexivity|]. split; [reflexivity|].
  apply (merge_overwrites_or_keeps sample_measurements sample_energy_usage
           [sample_device] _ 0 sample_module); reflexivity.
Defined.

(** C2, as the code has it. In a merge that does not raise, field by
    field and whatever the other three lists hold: when the list fetched for
    a temperature field ends with an item that has values, the value written
    is the last value of that item, the single latest sample; when the list
    fetched for a gas usage field ends with an item that has values, the
    value written is the whole value list of that item. Items before the
    last one are not used. *)
Theorem merge_folds_latest_item ms es ds ds' k m :
  _update_measured_data ds ms es = (Ok tt, ds') ->
  nth_error (all_modules ds) k = Some m ->
  exists m' t s h g,
    nth_error (all_modules ds') k = Some m' /\
    nth_error ms (2 * k) = Some t /\
    nth_error ms (2 * k + 1) = Some s /\
    nth_error es (2 * k) = Some h /\
    nth_error es (2 * k + 1) = Some g /\
    (forall older item vs0 v,
       t = older ++ [item] -> value item = vs0 ++ [v] ->
       temperature (measured m') = v) /\
    (forall older item vs0 v,
       s = older ++ [item] -> value item = vs0 ++ [v] ->
       setpoint_temp (measured m') = v) /\
    (forall older item,
       h = older ++ [item] -> value item <> [] ->
       gas_heating_usage (measured m') = value item) /\
    (forall older item,
       g = older ++ [item] -> value item <> [] ->
       gas_water_usage (measured m') = value item).
Proof.
  intros H Hk.
  destruct (merged_module_at _ _ _ _ _ _ H Hk) as (Hm' & Ht & Hs & Hh & Hg).
  exists (merged_module ms es (2 * k) m), (nth (2 * k) ms []),
    (nth (2 * k + 1) ms []), (nth (2 * k) es []), (nth (2 * k + 1) es []).
  repeat (split; [assumption|]).
  unfold merged_module. cbn [measured temperature setpoint_temp
    gas_heating_usage gas_water_usage].
  split; [|split; [|split]].
  - intros older item vs0 v E Ev. apply get_measurement_value_latest.
    exists vs0, older, item. rewrite Ev.
    repeat split; [exact E|]. destruct vs0; discriminate.
  - intros older item vs0 v E Ev. apply get_measurement_value_latest.
    exists vs0, older, item. rewrite Ev.
    repeat split; [exact E|]. destruct vs0; discriminate.
  - intros older item E Hne. apply get_energy_measurement_value_latest.
    exists older, item. repeat split; assumption.
  - intros older item E Hne. apply get_energy_measurement_value_latest.
    exists older, item. repeat split; assumption.
Qed.

Definition sample_measurements_full : list (list MeasurementItem) :=
  [[mkMeasurementItem [f19]; mkMeasurementItem [f20_5; f21]];
   [mkMeasurementItem [f20_5]]].

Definition sample_energy_usage_full : list (list MeasurementItem) :=
  [[mkMeasurementItem [f250; f300]]; [mkMeasurementItem [f100; f250]]].

(** On the sample input the setpoint list is empty and the gas water item
    has no values; the temperature and the gas heating usage are written all
    the same. *)
Lemma merge_folds_latest_item_witness :
  exists m',
    nth_error
      (all_modules
         (snd (_update_measured_data [sample_device] sample_measurements
                 sample_energy_usage))) 0 = Some m' /\
    temperature (measured m') = f21 /\
    gas_heating_usage (measured m') = [f250; f300].
Proof.
  destruct (merge_folds_latest_item sample_measurements sample_energy_usage
              [sample_device] _ 0 sample_module eq_refl eq_refl)
    as (m' & t & s & h & g & Hm' & Ht & _ & Hh & _ & Ft & _ & Fh & _).
  exists m'. split; [exact Hm'|]. split.
  - apply (Ft [] (mkMeasurementItem [f20_5; f21]) [f20_5] f21);
      [|reflexivity].
    simpl in Ht. injection Ht as <-. reflexivity.
  - apply (Fh [] (mkMeasurementItem [f250; f300])); [|discriminate].
    simpl in Hh. injection Hh as <-. reflexivity.
Defined.

(** C2, as it is stated, fails for the gas usages: the latest item fetched
    for the gas heating usage of the sample module has the values 250 and
    300; the single latest value is 300, and the merge writes both. *)
Lemma merge_gas_usage_is_not_single_value :
  exists ds' m' h,
    _update_measured_data [sample_device] sample_measurements
      sample_energy_usage = (Ok tt, ds') /\
    nth_error (all_modules ds') 0 = Some m' /\
    nth_error sample_energy_usage (2 * 0) = Some h /\
    latest_value h f300 /\
    gas_heating_usage (measured m') = [f250; f300] /\
    gas_heating_usage (measured m') <> [f300].
Proof.
  exists [mkDevice "d1" "NAVaillant" [sample_merged_module]],
    sample_merged_module, [mkMeasurementItem [f250; f300]].
  repeat split; try reflexivity.
  - exists [f250], [], (mkMeasurementItem [f250; f300]).
    repeat split. discriminate.
  - discriminate.
Qed.

(** ** Frame of the merge *)

Lemma for_each_frame {X F} (f : X -> F) (body : nat -> SE X nat) :
  (forall i x, f (snd (body i x)) = f x) ->
  forall l i, map f (snd (for_each body i l)) = map f l.
Proof.
  intros Hbody. induction l as [|x rest IH]; intro i; simpl; [reflexivity|].
  specialize (Hbody i x).
  destruct (body i x) as [[i'|e] x']; simpl in Hbody.
  - specialize (IH i'). destruct (for_each body i' rest) as [r rest'].
    simpl in *. congruence.
  - simpl. congruence.
Qed.

Lemma update_device_frame ms es i d :
  device_frame (snd (update_device ms es i d)) = device_frame d.
Proof.
  unfold update_device.
  pose proof (for_each_frame module_frame (update_module ms es)
                (update_module_frame ms es) (modules d) i) as H.
  destruct (for_each (update_module ms es) i (modules d)) as [r l'].
  unfold device_frame. simpl in *. rewrite H. reflexivity.
Qed.

(** C4. Whether it raises or not, the merge leaves every field of every
    device, module and program as it was, except the four measured values:
    ids, type, names, firmware, battery percentage and program lists are the
    same, module by module and device by device. *)
Theorem merge_changes_measured_only ds ms es :
  map device_frame (snd (_update_measured_data ds ms es))
  = map device_frame ds.
Proof.
  unfold _update_measured_data.
  pose proof (for_each_frame device_frame (update_device ms es)
                (update_device_frame ms es) ds 0) as H.
  destruct (for_each (update_device ms es) 0 ds) as [r l'].
  exact H.
Qed.

(** ** The calls of a poll cycle *)

(** The two requests made for a module, and those made for a device list,
    in the order of the loops. *)
Definition module_requests (t1 t2 : MeasurementType) (sc : MeasurementScale)
    (start : Z) (d : Device) (m : Module_) : list Request :=
  [mkRequest (device_id d) (module_id m) t1 sc start;
   mkRequest (device_id d) (module_id m) t2 sc start].

Definition measure_requests (t1 t2 : MeasurementType) (sc : MeasurementScale)
    (start : Z) (ds : list Device) : list Request :=
  flat_map (fun d => flat_map (module_requests t1 t2 sc start d) (modules d))
    ds.

(** The answers of the client to requests made one after the other, the
    first of them as call number [pos]. *)
Fixpoint answers (c : ThermostatClient) (pos : nat) (rs : list Request)
    : list (Res (list MeasurementItem)) :=
  match rs with
  | [] => []
  | r :: rest => async_get_measure c pos r :: answers c (S pos) rest
  end.

Definition add_calls (st : State) (calls : list Call) : State :=
  mkState (coordinator_data st) (requests st ++ calls).

Lemma add_calls_nil st : add_calls st [] = st.
Proof. destruct st. unfold add_calls. simpl. rewrite app_nil_r. reflexivity. Qed.

Lemma add_calls_add_calls st l1 l2 :
  add_calls (add_calls st l1) l2 = add_calls st (l1 ++ l2).
Proof. unfold add_calls. simpl. rewrite app_assoc. reflexivity. Qed.

Lemma answers_app c rs1 rs2 :
  forall pos,
    answers c pos (rs1 ++ rs2)
    = answers c pos rs1 ++ answers c (pos + List.length rs1) rs2.
Proof.
  induction rs1 as [|r rs1 IH]; intro pos; simpl.
  - f_equal. lia.
  - rewrite IH. do 3 f_equal. lia.
Qed.

Lemma length_answers c rs : forall pos, List.length (answers c pos rs) = List.length rs.
Proof. induction rs; intro pos; simpl; [reflexivity|]. rewrite IHrs. reflexivity. Qed.

Lemma nth_error_answers c rs :
  forall pos j r,
    nth_error rs j = Some r ->
    nth_error (answers c pos rs) j = Some (async_get_measure c (pos + j) r).
Proof.
  induction rs as [|r0 rs IH]; intros pos j r H.
  - destruct j; discriminate.
  - destruct j as [|j]; simpl in *.
    + inversion H; subst. do 2 f_equal. lia.
    + rewrite (IH (S pos) j r H). do 2 f_equal. lia.
Qed.

Lemma length_measure_requests t1 t2 sc start ds :
  List.length (measure_requests t1 t2 sc start ds)
  = 2 * List.length (all_modules ds).
Proof.
  unfold measure_requests, all_modules.
  induction ds as [|d ds IH]; simpl; [reflexivity|].
  rewrite !length_app, IH.
  assert (List.length (flat_map (module_requests t1 t2 sc start d) (modules d))
          = 2 * List.length (modules d)) as ->.
  { induction (modules d) as [|m l IHl]; simpl; [reflexivity|].
    rewrite IHl. lia. }
  lia.
Qed.

Section Fetch.
Variable w : World.
Variables t1 t2 : MeasurementType.
Variable sc : MeasurementScale.
Variable start : Z.

Lemma fetch_modules_loop (device : Device) (mods : list Module_) :
  forall tasks st,
    foldM (fun tasks module =>
             a <- call_get_measure w
                    (mkRequest (device_id device) (module_id module)
                       t1 sc start) ;;
             let tasks := tasks ++ [a] in
             b <- call_get_measure w
                    (mkRequest (device_id device) (module_id module)
                       t2 sc start) ;;
             ret (tasks ++ [b]))
      mods tasks st
    = (Ok (tasks
           ++ answers (_client w) (List.length (requests st))
                (flat_map (module_requests t1 t2 sc start device) mods)),
       add_calls st
         (map GetMeasure
            (flat_map (module_requests t1 t2 sc start device) mods))).
Proof.
  induction mods as [|m rest IH]; intros tasks st.
  - simpl. unfold ret. rewrite app_nil_r, add_calls_nil. reflexivity.
  - cbn [foldM]. unfold bind at 1. unfold bind at 1.
    unfold call_get_measure at 1. unfold bind at 1.
    unfold call_get_measure at 1. unfold ret at 1.
    rewrite IH. unfold log_call, add_calls. simpl.
    rewrite !length_app. simpl.
    rewrite <- !app_assoc. simpl.
    replace (List.length (requests st) + 1 + 1)
      with (S (S (List.length (requests st)))) by lia.
    replace (List.length (requests st) + 1)
      with (S (List.length (requests st))) by lia.
    reflexivity.
Qed.

Lemma fetch_devices_loop (ds : list Device) :
  forall tasks st,
    foldM (fun tasks device =>
             foldM (fun tasks module =>
                      a <- call_get_measure w
                             (mkRequest (device_id device) (module_id module)
                                t1 sc start) ;;
                      let tasks := tasks ++ [a] in
                      b <- call_get_measure w
                             (mkRequest (device_id device) (module_id module)
                                t2 sc start) ;;
                      ret (tasks ++ [b]))
               (modules device) tasks)
      ds tasks st
    = (Ok (tasks
           ++ answers (_client w) (List.length (requests st))
                (measure_requests t1 t2 sc start ds)),
       add_calls st (map GetMeasure (measure_requests t1 t2 sc start ds))).
Proof.
  induction ds as [|d rest IH]; intros tasks st.
  - simpl. unfold ret. rewrite app_nil_r, add_calls_nil. reflexivity.
  - cbn [foldM]. unfold bind at 1.
    rewrite fetch_modules_loop. rewrite IH.
    unfold measure_requests. simpl.
    rewrite add_calls_add_calls, map_app, answers_app, <- app_assoc.
    unfold add_calls at 1. simpl.
    rewrite length_app, length_map. reflexivity.
Qed.

End Fetch.

(** ** [gather] *)

Lemma gather_Ok {A} first (tasks : list (Res A)) (l : list A) :
  gather first tasks = Ok l <-> tasks = map Ok l.
Proof.
  unfold gather. split.
  - destruct (failures tasks) as [|e es] eqn:F; [|discriminate].
    intro H. inversion H; subst; clear H.
    induction tasks as [|[a|e] rest IH]; simpl in *;
      [reflexivity| |discriminate].
    rewrite <- IH by assumption. reflexivity.
  - intros ->.
    assert (failures (map (@Ok A) l) = []) as ->
      by (induction l; simpl; auto).
    f_equal. induction l; simpl; congruence.
Qed.

Lemma gather_Ok_length {A} first (tasks : list (Res A)) (l : list A) :
  gather first tasks = Ok l -> List.length l = List.length tasks.
Proof.
  intro H. apply gather_Ok in H. subst. rewrite length_map. reflexivity.
Qed.

Lemma failures_In {A} (tasks : list (Res A)) (e : exn) :
  In e (failures tasks) <-> In (Err e) tasks.
Proof.
  induction tasks as [|[a|e0] rest IH]; simpl.
  - tauto.
  - rewrite IH. split; [tauto|]. intros [H|H]; [discriminate|assumption].
  - rewrite IH. split; (intros [H|H]; [left; congruence|right; assumption]).
Qed.

(** The exception that [gather] raises is the one of some task. *)
Lemma gather_Err {A} first (tasks : list (Res A)) (e : exn) :
  gather first tasks = Err e -> In (Err e) tasks.
Proof.
  unfold gather. destruct (failures tasks) as [|e0 es] eqn:F; [discriminate|].
  intro H. injection H as <-.
  apply failures_In. rewrite F.
  destruct first as [|n]; simpl; [left; reflexivity|].
  destruct (nth_in_or_default n es e0) as [Hin|Hd].
  - right. exact Hin.
  - left. symmetry. exact Hd.
Qed.

(** [gather] raises as soon as one task does. *)
Lemma gather_raises {A} first (tasks : list (Res A)) (e : exn) :
  In (Err e) tasks -> exists e', gather first tasks = Err e'.
Proof.
  intro H. apply failures_In in H. unfold gather.
  destruct (failures tasks) as [|e0 es]; [contradiction|]. eauto.
Qed.

(** ** The poll cycle, case by case *)

Definition temperature_requests (w : World) (pos : nat) (ds : list Device)
    : list Request :=
  measure_requests TEMPERATURE SETPOINT_TEMPERATURE MAX
    (datetime_now w pos - timedelta_hours_1)%Z ds.

Definition energy_requests (w : World) (pos : nat) (ds : list Device)
    : list Request :=
  measure_requests SUM_ENERGY_GAS_HEATING SUM_ENERGY_GAS_WATER DAY
    (datetime_now w pos - timedelta_days_7)%Z ds.

Lemma get_temperature_measurements_spec w ds st :
  _get_temperature_measurements_for_all_devices w ds st
  = (gather (first_raised w)
       (answers (_client w) (List.length (requests st))
          (temperature_requests w (List.length (requests st)) ds)),
     add_calls st
       (map GetMeasure
          (temperature_requests w (List.length (requests st)) ds))).
Proof.
  unfold _get_temperature_measurements_for_all_devices.
  unfold bind at 1. unfold get at 1. unfold bind at 1.
  rewrite fetch_devices_loop. reflexivity.
Qed.

Lemma get_energy_usage_measurements_spec w ds st :
  _get_energy_usage_measurements_for_all_devices w ds st
  = (gather (first_raised w)
       (answers (_client w) (List.length (requests st))
          (energy_requests w (List.length (requests st)) ds)),
     add_calls st
       (map GetMeasure (energy_requests w (List.length (requests st)) ds))).
Proof.
  unfold _get_energy_usage_measurements_for_all_devices.
  unfold bind at 1. unfold get at 1. unfold bind at 1.
  rewrite fetch_devices_loop. reflexivity.
Qed.

(** The outcome of [_update_method] by what the client answers. *)
Lemma update_method_cases w st :
  _update_method w st
  = let c := _client w in
    let p := List.length (requests st) in
    match async_get_thermostats_data c p with
    | Err e => on_exception e (add_calls st [GetThermostatsData])
    | Ok ds =>
        let tr := temperature_requests w (S p) ds in
        match gather (first_raised w) (answers c (S p) tr) with
        | Err e =>
            on_exception e
              (add_calls st (GetThermostatsData :: map GetMeasure tr))
        | Ok ms =>
            let q := S p + List.length tr in
            let er := energy_requests w q ds in
            match gather (first_raised w) (answers c q er) with
            | Err e =>
                on_exception e
                  (add_calls st
                     (GetThermostatsData :: map GetMeasure (tr ++ er)))
            | Ok es =>
                (Ok (VaillantData_init c (merged_devices ms es 0 ds)),
                 add_calls st
                   (GetThermostatsData :: map GetMeasure (tr ++ er)))
            end
        end
    end.
Proof.
  cbv zeta.
  unfold _update_method, try_except.
  unfold bind at 1. unfold call_get_thermostats_data at 1.
  replace (log_call GetThermostatsData st)
    with (add_calls st [GetThermostatsData]) by reflexivity.
  destruct (async_get_thermostats_data (_client w) (List.length (requests st)))
    as [ds|e]; [|reflexivity].
  unfold bind at 1. rewrite get_temperature_measurements_spec.
  assert (List.length (requests (add_calls st [GetThermostatsData]))
          = S (List.length (requests st))) as ->
    by (simpl; rewrite length_app; simpl; lia).
  rewrite add_calls_add_calls. simpl app.
  destruct (gather (first_raised w) (answers _ _ _)) as [ms|e] eqn:Gt;
    [|reflexivity].
  unfold bind at 1. rewrite get_energy_usage_measurements_spec.
  match goal with
  | |- context [List.length (requests (add_calls st ?l))] =>
      assert (List.length (requests (add_calls st l))
              = S (List.length (requests st))
                + List.length
                    (temperature_requests w (S (List.length (requests st))) ds))
        as -> by (simpl; rewrite length_app; simpl; rewrite length_map; lia)
  end.
  rewrite add_calls_add_calls. simpl app. rewrite <- map_app.
  destruct (gather (first_raised w) (answers _ _ (energy_requests _ _ _)))
    as [es|e] eqn:Ge; [|reflexivity].
  apply gather_Ok_length in Gt, Ge.
  rewrite length_answers in Gt, Ge.
  unfold temperature_requests in Gt. unfold energy_requests in Ge.
  rewrite length_measure_requests in Gt, Ge.
  unfold bind at 1.
  rewrite update_measured_data_in_range by lia.
  reflexivity.
Qed.

(** ** Positions of the requests and of their answers *)

Lemma module_requests_pairs t1 t2 sc start d (mods : list Module_) :
  flat_map (module_requests t1 t2 sc start d) mods
  = flat_map (fun dm => module_requests t1 t2 sc start (fst dm) (snd dm))
      (map (fun m => (d, m)) mods).
Proof.
  induction mods as [|m rest IH]; simpl; [reflexivity|].
  rewrite IH. reflexivity.
Qed.

Lemma measure_requests_pairs t1 t2 sc start ds :
  measure_requests t1 t2 sc start ds
  = flat_map (fun dm => module_requests t1 t2 sc start (fst dm) (snd dm))
      (device_modules ds).
Proof.
  unfold measure_requests, device_modules.
  induction ds as [|d rest IH]; simpl; [reflexivity|].
  rewrite flat_map_app, IH, module_requests_pairs. reflexivity.
Qed.

Lemma all_modules_pairs ds : all_modules ds = map snd (device_modules ds).
Proof.
  unfold all_modules, device_modules.
  induction ds as [|d rest IH]; simpl; [reflexivity|].
  rewrite map_app, IH, map_map. simpl. rewrite map_id. reflexivity.
Qed.

Lemma nth_error_two_each {A B} (f g : A -> B) (l : list A) :
  forall k x,
    nth_error l k = Some x ->
    nth_error (flat_map (fun a => [f a; g a]) l) (2 * k) = Some (f x) /\
    nth_error (flat_map (fun a => [f a; g a]) l) (2 * k + 1) = Some (g x).
Proof.
  induction l as [|a rest IH]; intros k x H.
  - destruct k; discriminate.
  - destruct k as [|k]; simpl in H.
    + inversion H; subst. split; reflexivity.
    + destruct (IH k x H) as [H0 H1].
      replace (2 * S k) with (S (S (2 * k))) by lia.
      replace (S (S (2 * k)) + 1) with (S (S (2 * k + 1))) by lia.
      simpl. split; assumption.
Qed.

(** The two requests of the module at position [k] stand at the positions
    [2 * k] and [2 * k + 1]. *)
Lemma nth_error_measure_requests t1 t2 sc start ds k d m :
  nth_error (device_modules ds) k = Some (d, m) ->
  nth_error (measure_requests t1 t2 sc start ds) (2 * k)
  = Some (mkRequest (device_id d) (module_id m) t1 sc start) /\
  nth_error (measure_requests t1 t2 sc start ds) (2 * k + 1)
  = Some (mkRequest (device_id d) (module_id m) t2 sc start).
Proof.
  intro H. rewrite measure_requests_pairs.
  apply (nth_error_two_each
           (fun dm => mkRequest (device_id (fst dm)) (module_id (snd dm))
                        t1 sc start)
           (fun dm => mkRequest (device_id (fst dm)) (module_id (snd dm))
                        t2 sc start) _ k (d, m) H).
Qed.

(** A request was made as call number [pos] and the client answered it with
    the list [t]. *)
Definition answered (w : World) (log : list Call) (pos : nat) (r : Request)
    (t : list MeasurementItem) : Prop :=
  nth_error log pos = Some (GetMeasure r) /\
  async_get_measure (_client w) pos r = Ok t.

Lemma gathered_answer c first pos rs l j r :
  gather first (answers c pos rs) = Ok l ->
  nth_error rs j = Some r ->
  exists t, nth_error l j = Some t /\ async_get_measure c (pos + j) r = Ok t.
Proof.
  intros G H. apply gather_Ok in G.
  pose proof (nth_error_answers c rs pos j r H) as Ha.
  rewrite G, nth_error_map in Ha.
  destruct (nth_error l j) as [t|]; [|discriminate].
  exists t. split; [reflexivity|]. simpl in Ha. congruence.
Qed.

Lemma nth_error_cycle_log (old : list Call) (rs : list Request) j r :
  nth_error rs j = Some r ->
  nth_error (old ++ GetThermostatsData :: map GetMeasure rs)
    (S (List.length old) + j) = Some (GetMeasure r).
Proof.
  intro H. rewrite nth_error_app2 by lia.
  replace (S (List.length old) + j - List.length old) with (S j) by lia.
  simpl. rewrite nth_error_map, H. reflexivity.
Qed.

(** The module at position [k] of the device list, [m] of device [d], was
    given the answers to its own four requests: they stand in the gathered
    lists at [2 * k] and [2 * k + 1], they answer the calls made for [d] and
    [m], and [m'], the module after the merge, is made from them. *)
Definition receives_own_results (w : World) (st st' : State)
    (ds : list Device) (ms es : list (list MeasurementItem))
    (k : nat) (d : Device) (m m' : Module_) : Prop :=
  let p := List.length (requests st) in
  let n := List.length (all_modules ds) in
  let start_t := (datetime_now w (S p) - timedelta_hours_1)%Z in
  let start_e := (datetime_now w (S p + 2 * n) - timedelta_days_7)%Z in
  exists t s h g,
    nth_error ms (2 * k) = Some t /\
    answered w (requests st') (S p + 2 * k)
      (mkRequest (device_id d) (module_id m) TEMPERATURE MAX start_t) t /\
    nth_error ms (2 * k + 1) = Some s /\
    answered w (requests st') (S p + (2 * k + 1))
      (mkRequest (device_id d) (module_id m) SETPOINT_TEMPERATURE MAX start_t)
      s /\
    nth_error es (2 * k) = Some h /\
    answered w (requests st') (S p + 2 * n + 2 * k)
      (mkRequest (device_id d) (module_id m) SUM_ENERGY_GAS_HEATING DAY
         start_e) h /\
    nth_error es (2 * k + 1) = Some g /\
    answered w (requests st') (S p + 2 * n + (2 * k + 1))
      (mkRequest (device_id d) (module_id m) SUM_ENERGY_GAS_WATER DAY start_e)
      g /\
    module_frame m' = module_frame m /\
    measured m'
    = mkMeasured
        (_get_measurement_value t (temperature (measured m)))
        (_get_measurement_value s (setpoint_temp (measured m)))
        (_get_energy_measurement_value h (gas_heating_usage (measured m)))
        (_get_energy_measurement_value g (gas_water_usage (measured m))).

(** C10. When the three fetches of a poll cycle succeed, the two gathered
    lists hold two entries per module in the order of the merge loops, so
    the merge reads within bounds at every [i] and [i + 1] and does not
    raise, the cycle returns the merged devices, and every module is merged
    with the answers to its own four requests. *)
Theorem successful_poll_merges_in_bounds w st ds ms es st1 st2 st3 :
  call_get_thermostats_data w st = (Ok ds, st1) ->
  _get_temperature_measurements_for_all_devices w ds st1 = (Ok ms, st2) ->
  _get_energy_usage_measurements_for_all_devices w ds st2 = (Ok es, st3) ->
  List.length ms = 2 * List.length (all_modules ds) /\
  List.length es = 2 * List.length (all_modules ds) /\
  exists ds',
    _update_measured_data ds ms es = (Ok tt, ds') /\
    _update_method w st = (Ok (VaillantData_init (_client w) ds'), st3) /\
    forall k d m,
      nth_error (device_modules ds) k = Some (d, m) ->
      2 * k + 1 < List.length ms /\
      2 * k + 1 < List.length es /\
      exists m',
        nth_error (all_modules ds') k = Some m' /\
        receives_own_results w st st3 ds ms es k d m m'.
Proof.
  intros Hth Ht He.
  unfold call_get_thermostats_data in Hth.
  injection Hth as Hth <-.
  replace (log_call GetThermostatsData st)
    with (add_calls st [GetThermostatsData]) in * by reflexivity.
  rewrite get_temperature_measurements_spec in Ht.
  assert (List.length (requests (add_calls st [GetThermostatsData]))
          = S (List.length (requests st))) as Hp
    by (simpl; rewrite length_app; simpl; lia).
  rewrite Hp in Ht. injection Ht as Gt <-.
  rewrite get_energy_usage_measurements_spec in He.
  rewrite add_calls_add_calls in He. simpl app in He.
  set (p := List.length (requests st)) in *.
  set (tr := temperature_requests w (S p) ds) in *.
  assert (List.length tr = 2 * List.length (all_modules ds)) as Ltr
    by apply length_measure_requests.
  assert (List.length
            (requests (add_calls st (GetThermostatsData :: map GetMeasure tr)))
          = S p + 2 * List.length (all_modules ds)) as Hq
    by (simpl; rewrite length_app; simpl; rewrite length_map; lia).
  rewrite Hq in He. rewrite add_calls_add_calls in He. simpl app in He.
  rewrite <- map_app in He.
  pose proof (f_equal fst He) as Ge. pose proof (f_equal snd He) as E3.
  cbn [fst snd] in Ge, E3. subst st3. clear He.
  set (er := energy_requests w (S p + 2 * List.length (all_modules ds)) ds)
    in *.
  assert (List.length er = 2 * List.length (all_modules ds)) as Ler
    by apply length_measure_requests.
  assert (List.length ms = 2 * List.length (all_modules ds)) as Lms.
  { apply gather_Ok_length in Gt. rewrite length_answers in Gt. lia. }
  assert (List.length es = 2 * List.length (all_modules ds)) as Les.
  { apply gather_Ok_length in Ge. rewrite length_answers in Ge. lia. }
  split; [exact Lms|]. split; [exact Les|].
  exists (merged_devices ms es 0 ds).
  split; [apply update_measured_data_in_range; lia|].
  split.
  { rewrite update_method_cases. cbv zeta. fold p. rewrite Hth. fold tr.
    rewrite Gt, Ltr. fold er. rewrite Ge. reflexivity. }
  intros k d m Hk.
  assert (nth_error (all_modules ds) k = Some m) as Hm.
  { rewrite all_modules_pairs, nth_error_map, Hk. reflexivity. }
  assert (k < List.length (all_modules ds)) as Hlt
    by (apply nth_error_Some; congruence).
  split; [lia|]. split; [lia|].
  exists (merged_module ms es (2 * k) m). split.
  { rewrite all_modules_merged_devices, nth_error_merged_modules, Hm.
    reflexivity. }
  destruct (nth_error_measure_requests TEMPERATURE SETPOINT_TEMPERATURE MAX
              (datetime_now w (S p) - timedelta_hours_1)%Z ds k d m Hk)
    as [Rt Rs].
  destruct (nth_error_measure_requests SUM_ENERGY_GAS_HEATING
              SUM_ENERGY_GAS_WATER DAY
              (datetime_now w (S p + 2 * List.length (all_modules ds))
               - timedelta_days_7)%Z ds k d m Hk)
    as [Rh Rg].
  destruct (gathered_answer _ _ _ _ _ _ _ Gt Rt) as (t & Nt & At).
  destruct (gathered_answer _ _ _ _ _ _ _ Gt Rs) as (s & Ns & As).
  destruct (gathered_answer _ _ _ _ _ _ _ Ge Rh) as (h & Nh & Ah).
  destruct (gathered_answer _ _ _ _ _ _ _ Ge Rg) as (g & Ng & Ag).
  exists t, s, h, g. cbv zeta. fold p.
  unfold answered. simpl requests.
  assert (forall j r, nth_error (tr ++ er) j = Some r ->
            nth_error
              (requests st ++ GetThermostatsData :: map GetMeasure (tr ++ er))
              (S p + j) = Some (GetMeasure r)) as Hlog
    by (intros j r Hj; apply nth_error_cycle_log; exact Hj).
  assert (forall j r, nth_error tr j = Some r ->
            nth_error (tr ++ er) j = Some r) as Hl.
  { intros j r Hj. rewrite nth_error_app1; [exact Hj|].
    apply nth_error_Some. congruence. }
  assert (forall j r, nth_error er j = Some r ->
            nth_error (tr ++ er) (2 * List.length (all_modules ds) + j)
            = Some r) as Hr.
  { intros j r Hj. rewrite nth_error_app2 by lia.
    replace (2 * List.length (all_modules ds) + j - List.length tr)
      with j by lia. exact Hj. }
  repeat split; try assumption.
  - apply Hlog, Hl, Rt.
  - apply Hlog, Hl, Rs.
  - replace (S p + 2 * List.length (all_modules ds) + 2 * k)
      with (S p + (2 * List.length (all_modules ds) + 2 * k)) by lia.
    apply Hlog, Hr, Rh.
  - replace (S p + 2 * List.length (all_modules ds) + (2 * k + 1))
      with (S p + (2 * List.length (all_modules ds) + (2 * k + 1))) by lia.
    apply Hlog, Hr, Rg.
  - unfold merged_module. cbn [measured].
    rewrite (nth_error_nth _ _ [] Nt), (nth_error_nth _ _ [] Ns),
      (nth_error_nth _ _ [] Nh), (nth_error_nth _ _ [] Ng).
    reflexivity.
Qed.

(** A client that knows the sample device and answers every request by
    its measurement type. *)
Definition sample_client : ThermostatClient :=
  mkClient
    (fun _ => Ok [sample_device])
    (fun _ r =>
       match req_type r with
       | TEMPERATURE => Ok [mkMeasurementItem [f20_5; f21]]
       | SETPOINT_TEMPERATURE => Ok []
       | SUM_ENERGY_GAS_HEATING => Ok [mkMeasurementItem [f250; f300]]
       | SUM_ENERGY_GAS_WATER => Ok [mkMeasurementItem []]
       end).

Definition sample_world : World :=
  mkWorld sample_client (fun _ => 1700000000000000%Z) 0.

Definition sample_state : State := mkState None [].

Definition sample_temperature_calls : list Call :=
  [GetMeasure (mkRequest "d1" "m1" TEMPERATURE MAX 1699996400000000);
   GetMeasure (mkRequest "d1" "m1" SETPOINT_TEMPERATURE MAX 1699996400000000)].

Definition sample_energy_calls : list Call :=
  [GetMeasure (mkRequest "d1" "m1" SUM_ENERGY_GAS_HEATING DAY 1699395200000000);
   GetMeasure (mkRequest "d1" "m1" SUM_ENERGY_GAS_WATER DAY 1699395200000000)].

Lemma successful_poll_merges_in_bounds_witness :
  List.length sample_measurements = 2 * List.length (all_modules [sample_device])
  /\
  List.length sample_energy_usage = 2 * List.length (all_modules [sample_device])
  /\
  exists ds',
    _update_measured_data [sample_device] sample_measurements
      sample_energy_usage = (Ok tt, ds') /\
    _update_method sample_world sample_state
    = (Ok (VaillantData_init (_client sample_world) ds'),
       mkState None
         (GetThermostatsData
          :: sample_temperature_calls ++ sample_energy_calls)) /\
    forall k d m,
      nth_error (device_modules [sample_device]) k = Some (d, m) ->
      2 * k + 1 < List.length sample_measurements /\
      2 * k + 1 < List.length sample_energy_usage /\
      exists m',
        nth_error (all_modules ds') k = Some m' /\
        receives_own_results sample_world sample_state
          (mkState None
             (GetThermostatsData
              :: sample_temperature_calls ++ sample_energy_calls))
          [sample_device] sample_measurements sample_energy_usage k d m m'.
Proof.
  apply (successful_poll_merges_in_bounds sample_world sample_state
           [sample_device] sample_measurements sample_energy_usage
           (mkState None [GetThermostatsData])
           (mkState None (GetThermostatsData :: sample_temperature_calls)));
    reflexivity.
Defined.

(** ** The calls made in one cycle *)


Lemma on_exception_state {A} (e : exn) (st : State) :
  snd (@on_exception A e st) = st.
Proof. destruct e; reflexivity. Qed.


(** C7, as the code has it. For every device list that the client returns,
    the poll cycle makes the device list request once and then, module by
    module, the temperature and setpoint temperature requests; when none of
    these raises it goes on, module by module, with the gas heating and gas
    water requests, and it makes no other call: [1 + 4 * n] calls for [n]
    modules, [1 + 2 * n] when a temperature request raises, and never more
    than [1 + 4 * n]. *)
Theorem poll_cycle_requests w st ds :
  async_get_thermostats_data (_client w) (List.length (requests st)) = Ok ds ->
  let p := List.length (requests st) in
  let n := List.length (all_modules ds) in
  let tr := temperature_requests w (S p) ds in
  let er := energy_requests w (S p + 2 * n) ds in
  let st' := snd (_update_method w st) in
  requests st'
  = requests st
    ++ GetThermostatsData
       :: map GetMeasure
            (tr ++ if is_ok (gather (first_raised w)
                               (answers (_client w) (S p) tr))
                   then er else []) /\
  List.length tr = 2 * n /\
  List.length er = 2 * n /\
  List.length (requests st') <= List.length (requests st) + (1 + 4 * n) /\
  forall k d m,
    nth_error (device_modules ds) k = Some (d, m) ->
    nth_error tr (2 * k)
    = Some (mkRequest (device_id d) (module_id m) TEMPERATURE MAX
              (datetime_now w (S p) - timedelta_hours_1)%Z) /\
    nth_error tr (2 * k + 1)
    = Some (mkRequest (device_id d) (module_id m) SETPOINT_TEMPERATURE MAX
              (datetime_now w (S p) - timedelta_hours_1)%Z) /\
    nth_error er (2 * k)
    = Some (mkRequest (device_id d) (module_id m) SUM_ENERGY_GAS_HEATING DAY
              (datetime_now w (S p + 2 * n) - timedelta_days_7)%Z) /\
    nth_error er (2 * k + 1)
    = Some (mkRequest (device_id d) (module_id m) SUM_ENERGY_GAS_WATER DAY
              (datetime_now w (S p + 2 * n) - timedelta_days_7)%Z).
Proof.
  intros Hth p n tr er st'.
  assert (List.length tr = 2 * n) as Ltr by apply length_measure_requests.
  assert (List.length er = 2 * n) as Ler by apply length_measure_requests.
  assert (requests st'
          = requests st
            ++ GetThermostatsData
               :: map GetMeasure
                    (tr ++ if is_ok (gather (first_raised w)
                                       (answers (_client w) (S p) tr))
                           then er else [])) as Hlog.
  { subst st'. rewrite update_method_cases. cbv zeta. rewrite Hth.
    fold p. fold tr. rewrite Ltr. fold er.
    destruct (gather (first_raised w) (answers (_client w) (S p) tr))
      as [ms|e]; simpl is_ok.
    - destruct (gather (first_raised w) (answers (_client w) (S p + 2 * n) er))
        as [es|e]; [reflexivity|].
      rewrite on_exception_state. reflexivity.
    - rewrite on_exception_state, app_nil_r. reflexivity. }
  split; [exact Hlog|]. split; [exact Ltr|]. split; [exact Ler|]. split.
  - rewrite Hlog, length_app. simpl. rewrite length_map, length_app.
    destruct (is_ok _); simpl; lia.
  - intros k d m Hk.
    destruct (nth_error_measure_requests TEMPERATURE SETPOINT_TEMPERATURE MAX
                (datetime_now w (S p) - timedelta_hours_1)%Z ds k d m Hk).
    destruct (nth_error_measure_requests SUM_ENERGY_GAS_HEATING
                SUM_ENERGY_GAS_WATER DAY
                (datetime_now w (S p + 2 * n) - timedelta_days_7)%Z ds k d m
                Hk).
    repeat split; assumption.
Qed.

Lemma poll_cycle_requests_witness :
  requests (snd (_update_method sample_world sample_state))
  = GetThermostatsData :: sample_temperature_calls ++ sample_energy_calls /\
  List.length (requests (snd (_update_method sample_world sample_state)))
  <= 0 + (1 + 4 * 1).
Proof.
  pose proof (poll_cycle_requests sample_world sample_state [sample_device]
                eq_refl) as H.
  cbv zeta in H. destruct H as (Hlog & _ & _ & Hle & _).
  split; [exact Hlog|exact Hle].
Defined.

(** A client that knows the sample device and raises on every temperature
    request. *)
Definition failing_client : ThermostatClient :=
  mkClient
    (fun _ => Ok [sample_device])
    (fun _ r =>
       match req_type r with
       | TEMPERATURE => Err (ApiException "timeout")
       | SETPOINT_TEMPERATURE => Ok []
       | SUM_ENERGY_GAS_HEATING => Ok [mkMeasurementItem [f250; f300]]
       | SUM_ENERGY_GAS_WATER => Ok [mkMeasurementItem []]
       end).

Definition failing_world : World :=
  mkWorld failing_client (fun _ => 1700000000000000%Z) 0.

(** C7, as it is stated, fails in a cycle in which a temperature request
    raises: for the one module of the sample device two measurement
    requests are made, not four. *)
Lemma failed_temperature_fetch_makes_two_requests :
  async_get_thermostats_data (_client failing_world)
    (List.length (requests sample_state)) = Ok [sample_device] /\
  List.length (all_modules [sample_device]) = 1 /\
  requests (snd (_update_method failing_world sample_state))
  = GetThermostatsData :: sample_temperature_calls /\
  List.length (requests (snd (_update_method failing_world sample_state)))
  <> 1 + 4 * 1.
Proof.
  repeat split; try reflexivity. vm_compute. discriminate.
Qed.

(** ** A cycle in which a call raises *)

(** The exception with which the client answers a call made at [pos]. *)
Definition call_exception (c : ThermostatClient) (pos : nat) (call : Call)
    : option exn :=
  match call with
  | GetThermostatsData =>
      match async_get_thermostats_data c pos with
      | Err e => Some e
      | Ok _ => None
      end
  | GetMeasure r =>
      match async_get_measure c pos r with
      | Err e => Some e
      | Ok _ => None
      end
  end.

(** Some call made between the states [st] and [st'] raises [e]. *)
Definition raised_in_cycle (w : World) (st st' : State) (e : exn) : Prop :=
  exists j call,
    nth_error (requests st') (List.length (requests st) + j) = Some call /\
    call_exception (_client w) (List.length (requests st) + j) call = Some e.

(** The exceptions of the client library. *)
Definition is_api_exception (e : exn) : Prop :=
  match e with
  | RequestUnauthorizedException _ | ApiException _ => True
  | _ => False
  end.

(** What [_update_method] raises for an exception [e] of the client. *)
Definition surfaced_as (e : exn) (r : exn) : Prop :=
  (exists msg, e = RequestUnauthorizedException msg /\
               r = ConfigEntryAuthFailed) \/
  (exists msg, e = ApiException msg /\
               r = UpdateFailed ("Error communicating with API: " ++ msg)).

Lemma on_exception_api {A} (e : exn) (st : State) :
  is_api_exception e ->
  exists r, @on_exception A e st = (Err r, st) /\ surfaced_as e r.
Proof.
  destruct e; simpl; try contradiction; intros _.
  - exists ConfigEntryAuthFailed. split; [reflexivity|]. left. eauto.
  - eexists. split; [reflexivity|]. right. eauto.
Qed.

Lemma In_answers c rs :
  forall pos x,
    In x (answers c pos rs) ->
    exists j r, nth_error rs j = Some r /\ x = async_get_measure c (pos + j) r.
Proof.
  induction rs as [|r0 rs IH]; intros pos x H; simpl in H; [contradiction|].
  destruct H as [<-|H].
  - exists 0, r0. split; [reflexivity|]. f_equal. lia.
  - destruct (IH (S pos) x H) as (j & r & Hj & ->).
    exists (S j), r. split; [exact Hj|]. f_equal. lia.
Qed.

Lemma raised_by_measure w st (rs : list Request) j r e :
  nth_error rs j = Some r ->
  async_get_measure (_client w) (S (List.length (requests st)) + j) r = Err e ->
  raised_in_cycle w st
    (add_calls st (GetThermostatsData :: map GetMeasure rs)) e.
Proof.
  intros Hj He. exists (S j), (GetMeasure r).
  replace (List.length (requests st) + S j)
    with (S (List.length (requests st)) + j) by lia.
  split.
  - simpl requests. apply nth_error_cycle_log. exact Hj.
  - unfold call_exception. rewrite He. reflexivity.
Qed.

(** In a cycle that returns, no call has raised. *)
Lemma none_raised_when_gathered w st ds ms es e :
  let p := List.length (requests st) in
  let tr := temperature_requests w (S p) ds in
  let er := energy_requests w (S p + List.length tr) ds in
  async_get_thermostats_data (_client w) p = Ok ds ->
  gather (first_raised w) (answers (_client w) (S p) tr) = Ok ms ->
  gather (first_raised w) (answers (_client w) (S p + List.length tr) er)
  = Ok es ->
  ~ raised_in_cycle w st
      (add_calls st (GetThermostatsData :: map GetMeasure (tr ++ er))) e.
Proof.
  intros p tr er Hth Gt Ge (j & call & Hn & Hc).
  simpl requests in Hn. fold p in Hn, Hc.
  rewrite nth_error_app2 in Hn by lia.
  replace (p + j - List.length (requests st)) with j in Hn by (subst p; lia).
  destruct j as [|i]; simpl in Hn.
  - inversion Hn; subst call. simpl in Hc.
    replace (p + 0) with p in Hc by lia. rewrite Hth in Hc. discriminate.
  - rewrite nth_error_map in Hn.
    destruct (nth_error (tr ++ er) i) as [r|] eqn:Hr; [|discriminate].
    inversion Hn; subst call. simpl in Hc.
    destruct (Nat.lt_ge_cases i (List.length tr)) as [Hlt|Hge].
    + rewrite nth_error_app1 in Hr by exact Hlt.
      destruct (gathered_answer _ _ _ _ _ _ _ Gt Hr) as (t & _ & Ht).
      replace (p + S i) with (S p + i) in Hc by lia.
      rewrite Ht in Hc. discriminate.
    + rewrite nth_error_app2 in Hr by exact Hge.
      destruct (gathered_answer _ _ _ _ _ _ _ Ge Hr) as (t & _ & Ht).
      replace (p + S i)
        with (S p + List.length tr + (i - List.length tr)) in Hc by lia.
      rewrite Ht in Hc. discriminate.
Qed.

(** What [_update_method] raises for an exception [e] that reaches its
    [except] clauses. *)
Definition surfaced (e : exn) : exn :=
  match e with
  | RequestUnauthorizedException _ => ConfigEntryAuthFailed
  | ApiException msg => UpdateFailed ("Error communicating with API: " ++ msg)
  | _ => e
  end.

Lemma on_exception_surfaced {A} (e : exn) (st : State) :
  @on_exception A e st = (Err (surfaced e), st).
Proof. destruct e; reflexivity. Qed.






(** ** The lookup tables *)

Lemma dict_set_fresh {V} (k : string) (v : V) (d : dict V) :
  ~ In k (map fst d) -> dict_set k v d = d ++ [(k, v)].
Proof.
  induction d as [|[k' v'] rest IH]; simpl; intro H; [reflexivity|].
  destruct (String.eqb_spec k' k) as [->|_]; [tauto|].
  rewrite IH by tauto. reflexivity.
Qed.

Lemma fold_dict_set_fresh {V} (kvs : list (string * V)) :
  forall acc,
    NoDup (map fst (acc ++ kvs)) ->
    fold_left (fun d kv => dict_set (fst kv) (snd kv) d) kvs acc = acc ++ kvs.
Proof.
  induction kvs as [|[k v] rest IH]; intros acc H; simpl.
  - rewrite app_nil_r. reflexivity.
  - rewrite dict_set_fresh.
    + rewrite IH; rewrite <- app_assoc; [reflexivity|exact H].
    + rewrite map_app in H. simpl in H.
      apply NoDup_remove_2 in H. intro Hin. apply H.
      apply in_or_app. left. exact Hin.
Qed.

(** With distinct keys a comprehension keeps every pair, in order. *)
Lemma dict_comprehension_distinct {V} (kvs : list (string * V)) :
  NoDup (map fst kvs) -> dict_comprehension kvs = kvs.
Proof. intro H. apply (fold_dict_set_fresh kvs []). exact H. Qed.

Lemma dict_lookup_distinct {V} (kvs : list (string * V)) (k : string) (v : V) :
  NoDup (map fst kvs) ->
  (dict_lookup kvs k = Some v <-> In (k, v) kvs).
Proof.
  induction kvs as [|[k' v'] rest IH]; simpl; intro H.
  - split; [discriminate|contradiction].
  - inversion H as [|? ? Hnotin Hrest]; subst.
    destruct (String.eqb_spec k' k) as [->|Hne].
    + split.
      * intro E. inversion E; subst. left. reflexivity.
      * intros [E|Hin]; [congruence|].
        exfalso. apply Hnotin. apply (in_map fst) in Hin. exact Hin.
    + rewrite (IH Hrest). split; [tauto|].
      intros [E|Hin]; [congruence|exact Hin].
Qed.

Lemma keyed_list_spec {V} (key : V -> string) (l : list V) (k : string) (v : V) :
  In (k, v) (map (fun x => (key x, x)) l) <-> In v l /\ key v = k.
Proof.
  rewrite in_map_iff. split.
  - intros (x & E & Hin). inversion E; subst. auto.
  - intros (Hin & <-). exists v. auto.
Qed.

Lemma keyed_list_keys {V} (key : V -> string) (l : list V) :
  map fst (map (fun x => (key x, x)) l) = map key l.
Proof. rewrite map_map. reflexivity. Qed.

Lemma all_programs_modules ds :
  all_programs ds = flat_map therm_program_list (all_modules ds).
Proof.
  unfold all_programs, all_modules.
  induction ds as [|d rest IH]; simpl; [reflexivity|].
  rewrite flat_map_app, IH. reflexivity.
Qed.

(** C8. For a device list in which the device ids, the module ids and the
    program ids are each pairwise distinct, the three tables of
    [VaillantData] hold the tree and nothing else: every device, every
    module of every device and every program of every module's program list
    stands under its id, in the order of the tree, and a key is in a table
    only for such an object. *)
Theorem lookup_tables_hold_the_tree client ds :
  NoDup (map device_id ds) ->
  NoDup (map module_id (all_modules ds)) ->
  NoDup (map program_id (flat_map therm_program_list (all_modules ds))) ->
  vd_devices (VaillantData_init client ds)
  = map (fun d => (device_id d, d)) ds /\
  vd_modules (VaillantData_init client ds)
  = map (fun m => (module_id m, m)) (all_modules ds) /\
  vd_programs (VaillantData_init client ds)
  = map (fun p => (program_id p, p))
      (flat_map therm_program_list (all_modules ds)) /\
  (forall k d,
     dict_lookup (vd_devices (VaillantData_init client ds)) k = Some d <->
     In d ds /\ device_id d = k) /\
  (forall k m,
     dict_lookup (vd_modules (VaillantData_init client ds)) k = Some m <->
     (exists d, In d ds /\ In m (modules d)) /\ module_id m = k) /\
  (forall k p,
     dict_lookup (vd_programs (VaillantData_init client ds)) k = Some p <->
     (exists d m, In d ds /\ In m (modules d) /\
                  In p (therm_program_list m)) /\
     program_id p = k).
Proof.
  intros Hd Hm Hp.
  unfold VaillantData_init. simpl. rewrite all_programs_modules.
  rewrite !dict_comprehension_distinct by (rewrite keyed_list_keys; assumption).
  repeat (split; [reflexivity|]).
  split; [|split].
  - intros k d. rewrite dict_lookup_distinct
      by (rewrite keyed_list_keys; assumption).
    apply keyed_list_spec.
  - intros k m. rewrite dict_lookup_distinct
      by (rewrite keyed_list_keys; assumption).
    rewrite keyed_list_spec. unfold all_modules. rewrite in_flat_map.
    tauto.
  - intros k p. rewrite dict_lookup_distinct
      by (rewrite keyed_list_keys; assumption).
    rewrite keyed_list_spec. unfold all_modules. rewrite in_flat_map.
    split.
    + intros [(m & Hin & Hpm) E]. apply in_flat_map in Hin.
      destruct Hin as (d & Hdin & Hmin). split; [|exact E].
      exists d, m. auto.
    + intros [(d & m & Hdin & Hmin & Hpm) E]. split; [|exact E].
      exists m. split; [|exact Hpm]. apply in_flat_map. exists d. auto.
Qed.

Lemma lookup_tables_hold_the_tree_witness :
  vd_devices (VaillantData_init sample_client [sample_device])
  = [("d1", sample_device)] /\
  vd_modules (VaillantData_init sample_client [sample_device])
  = [("m1", sample_module)] /\
  vd_programs (VaillantData_init sample_client [sample_device])
  = [("p1", mkProgram "p1")].
Proof.
  destruct (lookup_tables_hold_the_tree sample_client [sample_device])
    as (Hd & Hm & Hp & _).
  - repeat constructor. simpl. tauto.
  - repeat constructor. simpl. tauto.
  - repeat constructor. simpl. tauto.
  - repeat split; assumption.
Defined.

(** ** Setting up the sensors *)

(** The three sensors of a module. *)
Definition module_sensors (dm : Device * Module_) : list Entity :=
  [mkEntity BatterySensor (device_id (fst dm)) (module_id (snd dm)) None;
   mkEntity GasWaterSensor (device_id (fst dm)) (module_id (snd dm)) None;
   mkEntity GasHeatingSensor (device_id (fst dm)) (module_id (snd dm)) None].

Lemma sensors_of_pairs (c : EntityClass) (devs : list Device) :
  flat_map
    (fun device =>
       map (fun module => mkEntity c (device_id device) (module_id module) None)
         (modules device)) devs
  = map (fun dm => mkEntity c (device_id (fst dm)) (module_id (snd dm)) None)
      (device_modules devs).
Proof.
  unfold device_modules.
  induction devs as [|d rest IH]; simpl; [reflexivity|].
  rewrite map_app, IH, map_map. reflexivity.
Qed.

Lemma data_ready st vd :
  coordinator_data st = Some vd -> VaillantEntity.data st = (Ok vd, st).
Proof.
  intro H. unfold VaillantEntity.data. unfold_se. rewrite H. reflexivity.
Qed.

Lemma data_missing st :
  coordinator_data st = None ->
  VaillantEntity.data st = (Err AttributeError, st).
Proof.
  intro H. unfold VaillantEntity.data. unfold_se. rewrite H. reflexivity.
Qed.

Lemma sensors_of_ready c st vd :
  coordinator_data st = Some vd ->
  sensors_of c st
  = (Ok (map (fun dm =>
                mkEntity c (device_id (fst dm)) (module_id (snd dm)) None)
           (device_modules (dict_values (vd_devices vd)))), st).
Proof.
  intro H. unfold sensors_of, bind. rewrite (data_ready st vd H).
  unfold ret. rewrite sensors_of_pairs. reflexivity.
Qed.

Lemma three_maps_permutation {A B} (f g h : A -> B) (l : list A) :
  Permutation (map f l ++ map g l ++ map h l)
    (flat_map (fun x => [f x; g x; h x]) l).
Proof.
  induction l as [|a l IH]; simpl; [constructor|].
  apply perm_skip.
  apply Permutation_sym.
  apply Permutation_trans
    with (g a :: map f l ++ map g l ++ h a :: map h l);
    [|apply Permutation_middle].
  apply perm_skip.
  apply Permutation_trans
    with (h a :: (map f l ++ map g l) ++ map h l).
  - apply perm_skip. rewrite <- app_assoc. apply Permutation_sym. exact IH.
  - rewrite (app_assoc (map f l) (map g l) (h a :: map h l)).
    apply Permutation_middle.
Qed.

(** C6. With coordinator data in place, setup hands over exactly three
    sensors for every module of every device of the data, a battery sensor,
    a gas water usage sensor and a gas heating usage sensor, and nothing
    else; it reads the data and changes nothing. *)
Theorem setup_creates_three_sensors_per_module st vd :
  coordinator_data st = Some vd ->
  exists new_devices,
    async_setup_entry st = (Ok new_devices, st) /\
    Permutation new_devices
      (flat_map module_sensors (device_modules (dict_values (vd_devices vd))))
    /\
    List.length new_devices
    = 3 * List.length (all_modules (dict_values (vd_devices vd))).
Proof.
  intro H.
  unfold async_setup_entry, bind.
  rewrite !(sensors_of_ready _ st vd H). unfold ret.
  eexists. split; [reflexivity|]. split.
  - rewrite <- app_assoc. apply three_maps_permutation.
  - rewrite !length_app, !length_map, all_modules_pairs, length_map. lia.
Qed.

Definition sample_data : VaillantData :=
  VaillantData_init sample_client
    [mkDevice "d1" "NAVaillant" [sample_merged_module]].

Definition sample_ready_state : State :=
  mkState (Some sample_data)
    (GetThermostatsData :: sample_temperature_calls ++ sample_energy_calls).

Lemma setup_creates_three_sensors_per_module_witness :
  exists new_devices,
    async_setup_entry sample_ready_state = (Ok new_devices, sample_ready_state)
    /\
    Permutation new_devices
      [mkEntity BatterySensor "d1" "m1" None;
       mkEntity GasWaterSensor "d1" "m1" None;
       mkEntity GasHeatingSensor "d1" "m1" None] /\
    List.length new_devices = 3 * 1.
Proof.
  apply (setup_creates_three_sensors_per_module sample_ready_state sample_data).
  reflexivity.
Defined.

(** ** Reading the properties of an entity *)

(** A computation that only reads: whatever it returns or raises, the
    coordinator data and the log of calls are as before. *)
Definition reads_only {A} (c : M A) : Prop := forall st, snd (c st) = st.

Lemma reads_only_ret {A} (a : A) : reads_only (ret a).
Proof. intro st. reflexivity. Qed.

Lemma reads_only_raise {A} (e : exn) : reads_only (@raise State A e).
Proof. intro st. reflexivity. Qed.

Lemma reads_only_lift {A} (r : Res A) : reads_only (lift r).
Proof. intro st. reflexivity. Qed.

Lemma reads_only_get : reads_only (@get State).
Proof. intro st. reflexivity. Qed.

Lemma reads_only_bind {A B} (c : M A) (k : A -> M B) :
  reads_only c -> (forall a, reads_only (k a)) -> reads_only (bind c k).
Proof.
  intros Hc Hk st. unfold bind. specialize (Hc st).
  destruct (c st) as [[a|e] st1]; simpl in Hc; subst st1.
  - apply Hk.
  - reflexivity.
Qed.

Lemma reads_only_data : reads_only VaillantEntity.data.
Proof.
  apply reads_only_bind; [apply reads_only_get|].
  intro st. destruct (coordinator_data st);
    [apply reads_only_ret|apply reads_only_raise].
Qed.

Create HintDb reads.
#[local] Hint Resolve reads_only_ret reads_only_raise reads_only_lift
  reads_only_get reads_only_data : reads.

Ltac reads_only_steps :=
  repeat first [ solve [auto with reads] | apply reads_only_bind; [|intro] ].

Lemma reads_only_device self : reads_only (VaillantEntity._device self).
Proof. unfold VaillantEntity._device. reads_only_steps. Qed.

Lemma reads_only_module self : reads_only (VaillantEntity._module self).
Proof. unfold VaillantEntity._module. reads_only_steps. Qed.

Lemma reads_only_program self : reads_only (VaillantEntity._program self).
Proof.
  unfold VaillantEntity._program.
  destruct (_program_id self); reads_only_steps.
Qed.

#[local] Hint Resolve reads_only_device reads_only_module reads_only_program
  : reads.

Lemma device_ready self st vd d :
  coordinator_data st = Some vd ->
  dict_lookup (vd_devices vd) (_device_id self) = Some d ->
  VaillantEntity._device self st = (Ok d, st).
Proof.
  intros H Hd. unfold VaillantEntity._device, bind.
  rewrite (data_ready st vd H). unfold lift, dict_get. rewrite Hd.
  reflexivity.
Qed.

Lemma module_ready self st vd m :
  coordinator_data st = Some vd ->
  dict_lookup (vd_modules vd) (_module_id self) = Some m ->
  VaillantEntity._module self st = (Ok m, st).
Proof.
  intros H Hm. unfold VaillantEntity._module, bind.
  rewrite (data_ready st vd H). unfold lift, dict_get. rewrite Hm.
  reflexivity.
Qed.




Definition sample_battery : Entity := mkEntity BatterySensor "d1" "m1" None.


(** ** The native value of the gas sensors *)

Lemma py_index_last {A} (l0 : list A) (v : A) :
  py_index (l0 ++ [v]) (Z.of_nat (List.length (l0 ++ [v])) - 1) = Ok v.
Proof.
  unfold py_index. rewrite length_app. simpl List.length.
  destruct (Z.leb_spec 0 (Z.of_nat (List.length l0 + 1) - 1)) as [_|Hneg];
    [|lia].
  replace (Z.to_nat (Z.of_nat (List.length l0 + 1) - 1))
    with (List.length l0) by lia.
  unfold getitem. rewrite nth_error_app2 by lia.
  rewrite Nat.sub_diag. reflexivity.
Qed.

(** On an empty list the index is [-1], which is out of range. *)
Lemma py_index_last_empty {A} :
  (Z.of_nat (List.length (@nil A)) - 1 = -1)%Z /\
  py_index (@nil A) (Z.of_nat (List.length (@nil A)) - 1) = Err IndexError.
Proof. split; reflexivity. Qed.

Lemma str_last_of_nonempty str_float (l : list float) (d : float) :
  l <> [] -> str_last_of str_float l l = Ok (str_float (last l d)).
Proof.
  intro H. destruct (exists_last H) as (l0 & v & ->).
  unfold str_last_of. rewrite py_index_last, last_last. reflexivity.
Qed.

(** C9. For an entity whose module is [m]: when the gas usage list of [m]
    is not empty, the native value of the gas water and of the gas heating
    sensor is the string form of its last element; when it is empty, the
    index is [-1] and the read raises [IndexError], there being no test for
    an empty list. *)
Theorem gas_sensors_index_last str_float self st vd m :
  coordinator_data st = Some vd ->
  dict_lookup (vd_modules vd) (_module_id self) = Some m ->
  (forall d,
     gas_water_usage (measured m) <> [] ->
     VaillantGasWaterSensor.native_value str_float self st
     = (Ok (str_float (last (gas_water_usage (measured m)) d)), st)) /\
  (gas_water_usage (measured m) = [] ->
   (Z.of_nat (List.length (gas_water_usage (measured m))) - 1 = -1)%Z /\
   VaillantGasWaterSensor.native_value str_float self st
   = (Err IndexError, st)) /\
  (forall d,
     gas_heating_usage (measured m) <> [] ->
     VaillantGasHeatingSensor.native_value str_float self st
     = (Ok (str_float (last (gas_heating_usage (measured m)) d)), st)) /\
  (gas_heating_usage (measured m) = [] ->
   (Z.of_nat (List.length (gas_heating_usage (measured m))) - 1 = -1)%Z /\
   VaillantGasHeatingSensor.native_value str_float self st
   = (Err IndexError, st)).
Proof.
  intros H Hm. pose proof (module_ready self st vd m H Hm) as Rm.
  unfold VaillantGasWaterSensor.native_value,
    VaillantGasHeatingSensor.native_value, bind.
  rewrite !Rm. unfold lift.
  split; [|split; [|split]].
  - intros d Hne. rewrite (str_last_of_nonempty _ _ d Hne). reflexivity.
  - intros ->. split; reflexivity.
  - intros d Hne. rewrite (str_last_of_nonempty _ _ d Hne). reflexivity.
  - intros ->. split; reflexivity.
Qed.

Definition sample_gas_water : Entity := mkEntity GasWaterSensor "d1" "m1" None.

(** A formatting of floats for the examples; only the sample values are
    told apart. *)
Definition sample_str_float (x : float) : string :=
  match x with
  | S754_finite false 100 0 => "100.0"
  | S754_finite false 250 0 => "250.0"
  | S754_finite false 300 0 => "300.0"
  | _ => "?"
  end.

(** A state in which the module has no gas usage yet. *)
Definition sample_empty_module : Module_ :=
  mkModule "m1" "Living room" 52 87 [mkProgram "p1"]
    (mkMeasured f19 f19 [] []).

Definition sample_empty_state : State :=
  mkState
    (Some (VaillantData_init sample_client
             [mkDevice "d1" "NAVaillant" [sample_empty_module]])) [].

Lemma gas_sensors_index_last_witness :
  VaillantGasWaterSensor.native_value sample_str_float sample_gas_water
    sample_ready_state = (Ok "100.0", sample_ready_state) /\
  VaillantGasHeatingSensor.native_value sample_str_float sample_gas_water
    sample_ready_state = (Ok "300.0", sample_ready_state) /\
  VaillantGasWaterSensor.native_value sample_str_float sample_gas_water
    sample_empty_state = (Err IndexError, sample_empty_state).
Proof.
  destruct (gas_sensors_index_last sample_str_float sample_gas_water
              sample_ready_state sample_data sample_merged_module
              eq_refl eq_refl) as (Hw & _ & Hh & _).
  destruct (gas_sensors_index_last sample_str_float sample_gas_water
              sample_empty_state
              (VaillantData_init sample_client
                 [mkDevice "d1" "NAVaillant" [sample_empty_module]])
              sample_empty_module eq_refl eq_refl) as (_ & He & _).
  split; [|split].
  - apply (Hw f19). discriminate.
  - apply (Hh f19). discriminate.
  - apply He. reflexivity.
Defined.

(** * Further properties of the merge step *)

(** The last measurement item of a fetched list, if there is one. *)
Definition latest_item (l : list MeasurementItem) : option MeasurementItem :=
  match l with
  | [] => None
  | m :: ms => Some (last ms m)
  end.

Lemma get_measurement_value_by_latest l l' d :
  latest_item l = latest_item l' ->
  _get_measurement_value l d = _get_measurement_value l' d.
Proof.
  unfold _get_measurement_value, latest_item. intros ->. reflexivity.
Qed.

Lemma get_energy_measurement_value_by_latest l l' d :
  latest_item l = latest_item l' ->
  _get_energy_measurement_value l d = _get_energy_measurement_value l' d.
Proof.
  unfold _get_energy_measurement_value, latest_item. intros ->. reflexivity.
Qed.

Lemma getitem_by_latest (a b : list (list MeasurementItem)) (i : nat) :
  map latest_item a = map latest_item b ->
  match getitem a i, getitem b i with
  | Ok x, Ok y => latest_item x = latest_item y
  | Err IndexError, Err IndexError => True
  | _, _ => False
  end.
Proof.
  intro H. unfold getitem.
  pose proof (f_equal (fun l => nth_error l i) H) as Hi. simpl in Hi.
  rewrite !nth_error_map in Hi.
  destruct (nth_error a i), (nth_error b i); simpl in Hi;
    try discriminate; [congruence|exact I].
Qed.

Lemma update_module_by_latest ms ms' es es' i m :
  map latest_item ms = map latest_item ms' ->
  map latest_item es = map latest_item es' ->
  update_module ms es i m = update_module ms' es' i m.
Proof.
  intros Hm He. unfold update_module. unfold_se.
  pose proof (getitem_by_latest ms ms' i Hm) as H0.
  pose proof (getitem_by_latest ms ms' (i + 1) Hm) as H1.
  pose proof (getitem_by_latest es es' i He) as H2.
  pose proof (getitem_by_latest es es' (i + 1) He) as H3.
  destruct (getitem ms i) as [a0|[]], (getitem ms' i) as [b0|[]];
    try contradiction; [|reflexivity].
  rewrite (get_measurement_value_by_latest a0 b0 _ H0).
  destruct (getitem ms (i + 1)) as [a1|[]], (getitem ms' (i + 1)) as [b1|[]];
    try contradiction; [|reflexivity].
  rewrite (get_measurement_value_by_latest a1 b1 _ H1).
  destruct (getitem es i) as [a2|[]], (getitem es' i) as [b2|[]];
    try contradiction; [|reflexivity].
  rewrite (get_energy_measurement_value_by_latest a2 b2 _ H2).
  destruct (getitem es (i + 1)) as [a3|[]], (getitem es' (i + 1)) as [b3|[]];
    try contradiction; [|reflexivity].
  rewrite (get_energy_measurement_value_by_latest a3 b3 _ H3).
  reflexivity.
Qed.

Lemma for_each_ext {X} (body body' : nat -> SE X nat) :
  (forall i x, body i x = body' i x) ->
  forall l i, for_each body i l = for_each body' i l.
Proof.
  intros H. induction l as [|x rest IH]; intro i; simpl; [reflexivity|].
  rewrite H. destruct (body' i x) as [[i'|e] x']; [|reflexivity].
  rewrite IH. reflexivity.
Qed.

(** X1. The merge uses nothing of the fetched lists but the last
    measurement item of each: two runs on fetched lists that agree on these
    last items (and on which lists are empty) do the same, exception or
    not. *)
Theorem merge_reads_latest_items_only ds ms ms' es es' :
  map latest_item ms = map latest_item ms' ->
  map latest_item es = map latest_item es' ->
  _update_measured_data ds ms es = _update_measured_data ds ms' es'.
Proof.
  intros Hm He. unfold _update_measured_data.
  rewrite (for_each_ext (update_device ms es) (update_device ms' es')).
  - reflexivity.
  - intros i d. unfold update_device.
    rewrite (for_each_ext (update_module ms es) (update_module ms' es'));
      [reflexivity|].
    intros j m. apply update_module_by_latest; assumption.
Qed.

Lemma merge_reads_latest_items_only_witness :
  _update_measured_data [sample_device] sample_measurements_full
    sample_energy_usage_full
  = _update_measured_data [sample_device]
      [[mkMeasurementItem [f20_5; f21]]; [mkMeasurementItem [f20_5]]]
      sample_energy_usage_full.
Proof.
  apply (merge_reads_latest_items_only [sample_device]); reflexivity.
Defined.

(** ** Merging twice, merging nothing *)

Lemma get_measurement_value_idem l d :
  _get_measurement_value l (_get_measurement_value l d)
  = _get_measurement_value l d.
Proof.
  unfold _get_measurement_value.
  destruct l as [|m ms]; [reflexivity|].
  destruct (value (last ms m)); reflexivity.
Qed.

Lemma get_energy_measurement_value_idem l d :
  _get_energy_measurement_value l (_get_energy_measurement_value l d)
  = _get_energy_measurement_value l d.
Proof.
  unfold _get_energy_measurement_value.
  destruct l as [|m ms]; [reflexivity|].
  destruct (value (last ms m)); reflexivity.
Qed.

Lemma merged_module_idem ms es i m :
  merged_module ms es i (merged_module ms es i m) = merged_module ms es i m.
Proof.
  unfold merged_module. simpl.
  rewrite !get_measurement_value_idem, !get_energy_measurement_value_idem.
  reflexivity.
Qed.

Lemma length_merged_modules ms es l :
  forall i, List.length (merged_modules ms es i l) = List.length l.
Proof. induction l; intro i; simpl; [reflexivity|]. rewrite IHl. reflexivity. Qed.

Lemma merged_modules_idem ms es l :
  forall i,
    merged_modules ms es i (merged_modules ms es i l)
    = merged_modules ms es i l.
Proof.
  induction l as [|m rest IH]; intro i; simpl; [reflexivity|].
  rewrite merged_module_idem, IH. reflexivity.
Qed.

Lemma merged_devices_idem ms es ds :
  forall i,
    merged_devices ms es i (merged_devices ms es i ds)
    = merged_devices ms es i ds.
Proof.
  induction ds as [|d rest IH]; intro i; simpl; [reflexivity|].
  rewrite length_merged_modules, merged_modules_idem, IH. reflexivity.
Qed.

(** X2. The merge is idempotent: merging the same fetched lists once more
    into the devices that a merge has produced does not raise and changes
    nothing. *)
Theorem merge_twice_is_merge_once ds ds' ms es :
  _update_measured_data ds ms es = (Ok tt, ds') ->
  _update_measured_data ds' ms es = (Ok tt, ds').
Proof.
  intro H. apply update_measured_data_Ok in H. destruct H as (-> & Hlen).
  assert (List.length (all_modules (merged_devices ms es 0 ds))
          = List.length (all_modules ds)) as Hn
    by (rewrite all_modules_merged_devices; apply length_merged_modules).
  rewrite update_measured_data_in_range.
  - rewrite merged_devices_idem. reflexivity.
  - rewrite Hn. destruct (all_modules ds); [simpl; lia|].
    apply Hlen. discriminate.
  - rewrite Hn. destruct (all_modules ds); [simpl; lia|].
    apply Hlen. discriminate.
Qed.

Lemma merge_twice_is_merge_once_witness :
  _update_measured_data [mkDevice "d1" "NAVaillant" [sample_merged_module]]
    sample_measurements sample_energy_usage
  = (Ok tt, [mkDevice "d1" "NAVaillant" [sample_merged_module]]).
Proof.
  apply (merge_twice_is_merge_once [sample_device]). reflexivity.
Defined.

Lemma no_new_sample_nth (ms : list (list MeasurementItem)) (i : nat) :
  (forall l, In l ms -> no_new_sample l) -> no_new_sample (nth i ms []).
Proof.
  intro H. destruct (nth_in_or_default i ms []) as [Hin| ->].
  - apply H. exact Hin.
  - left. reflexivity.
Qed.

Lemma merged_module_nothing_new ms es i m :
  (forall l, In l ms -> no_new_sample l) ->
  (forall l, In l es -> no_new_sample l) ->
  merged_module ms es i m = m.
Proof.
  intros Hm He. unfold merged_module.
  rewrite !get_measurement_value_keep by (apply no_new_sample_nth; exact Hm).
  rewrite !get_energy_measurement_value_keep
    by (apply no_new_sample_nth; exact He).
  destruct m as [a b c d e [t s h g]]. reflexivity.
Qed.

Lemma merged_devices_nothing_new ms es ds :
  (forall l, In l ms -> no_new_sample l) ->
  (forall l, In l es -> no_new_sample l) ->
  forall i, merged_devices ms es i ds = ds.
Proof.
  intros Hm He. induction ds as [|d rest IH]; intro i; simpl; [reflexivity|].
  rewrite IH. f_equal.
  assert (forall l j, merged_modules ms es j l = l) as Hl.
  { induction l as [|m l IHl]; intro j; simpl; [reflexivity|].
    rewrite merged_module_nothing_new, IHl by assumption. reflexivity. }
  rewrite Hl. destruct d. reflexivity.
Qed.

(** X3. When none of the fetched lists brings a new sample (each is empty
    or ends with an item without values), a merge that does not raise
    returns the devices exactly as they were fetched. *)
Theorem merge_without_new_samples_is_identity ds ds' ms es :
  (forall l, In l ms -> no_new_sample l) ->
  (forall l, In l es -> no_new_sample l) ->
  _update_measured_data ds ms es = (Ok tt, ds') ->
  ds' = ds.
Proof.
  intros Hm He H. apply update_measured_data_Ok in H. destruct H as (-> & _).
  apply merged_devices_nothing_new; assumption.
Qed.

Lemma merge_without_new_samples_is_identity_witness :
  snd (_update_measured_data [sample_device]
         [[]; [mkMeasurementItem []]] [[mkMeasurementItem []]; []])
  = [sample_device].
Proof.
  apply (merge_without_new_samples_is_identity [sample_device] _
           [[]; [mkMeasurementItem []]] [[mkMeasurementItem []]; []]).
  - intros l [<-|[<-|Hf]]; [left; reflexivity| |destruct Hf].
    right. exists [], (mkMeasurementItem []). split; reflexivity.
  - intros l [<-|[<-|Hf]]; [|left; reflexivity|destruct Hf].
    right. exists [], (mkMeasurementItem []). split; reflexivity.
  - reflexivity.
Defined.

(** ** When the merge raises *)

Lemma update_module_Err ms es i m e m' :
  update_module ms es i m = (Err e, m') -> e = IndexError.
Proof.
  unfold update_module, getitem. unfold_se.
  destruct (nth_error ms i); [|intro H; inversion H; reflexivity].
  destruct (nth_error ms (i + 1)); [|intro H; inversion H; reflexivity].
  destruct (nth_error es i); [|intro H; inversion H; reflexivity].
  destruct (nth_error es (i + 1)); [|intro H; inversion H; reflexivity].
  discriminate.
Qed.

Lemma for_each_Err {X} (body : nat -> SE X nat) (P : exn -> Prop) :
  (forall i x e x', body i x = (Err e, x') -> P e) ->
  forall l i e l', for_each body i l = (Err e, l') -> P e.
Proof.
  intro Hbody. induction l as [|x rest IH]; intros i e l' H; simpl in H.
  - discriminate.
  - destruct (body i x) as [[i'|e0] x'] eqn:Eb.
    + destruct (for_each body i' rest) as [r rest'] eqn:Er.
      inversion H; subst. exact (IH _ _ _ Er).
    + inversion H; subst. exact (Hbody _ _ _ _ Eb).
Qed.

Lemma update_measured_data_Err ds ms es e ds' :
  _update_measured_data ds ms es = (Err e, ds') -> e = IndexError.
Proof.
  unfold _update_measured_data.
  destruct (for_each (update_device ms es) 0 ds) as [[j|e0] l'] eqn:E;
    [discriminate|].
  intro H. inversion H; subst.
  apply (for_each_Err (update_device ms es) (fun x => x = IndexError))
    in E; [exact E|].
  intros i d x d'. unfold update_device.
  destruct (for_each (update_module ms es) i (modules d)) as [[j|e1] l1] eqn:Em;
    [discriminate|].
  intro H1. inversion H1; subst.
  apply (for_each_Err (update_module ms es) (fun x => x = IndexError)) in Em;
    [exact Em|].
  intros. eapply update_module_Err. eassumption.
Qed.

(** X4. The merge raises nothing but [IndexError], and it raises exactly
    when there is a module and one of the two fetched lists has fewer than
    two entries per module; longer lists are accepted. *)
Theorem merge_raises_iff_lists_too_short ds ms es :
  let n := List.length (all_modules ds) in
  (fst (_update_measured_data ds ms es) = Ok tt /\
   (n = 0 \/ (2 * n <= List.length ms /\ 2 * n <= List.length es))) \/
  (fst (_update_measured_data ds ms es) = Err IndexError /\
   0 < n /\ (List.length ms < 2 * n \/ List.length es < 2 * n)).
Proof.
  intro n.
  destruct (Nat.eq_dec n 0) as [Hz|Hnz].
  - left. split; [|left; exact Hz].
    rewrite update_measured_data_in_range; [reflexivity| |]; fold n; lia.
  - destruct (le_dec (2 * n) (List.length ms)) as [Hm|Hm];
      [destruct (le_dec (2 * n) (List.length es)) as [He|He]|].
    + left. split; [|right; split; assumption].
      rewrite update_measured_data_in_range by assumption. reflexivity.
    + right. split; [|split; [lia|right; lia]].
      destruct (_update_measured_data ds ms es) as [[[]|e] ds'] eqn:E.
      * apply update_measured_data_Ok in E. destruct E as (_ & Hlen).
        assert (all_modules ds <> []) as Hne
          by (intro E0; subst n; rewrite E0 in Hnz; apply Hnz; reflexivity).
        apply Hlen in Hne. fold n in Hne. lia.
      * apply update_measured_data_Err in E. subst. reflexivity.
    + right. split; [|split; [lia|left; lia]].
      destruct (_update_measured_data ds ms es) as [[[]|e] ds'] eqn:E.
      * apply update_measured_data_Ok in E. destruct E as (_ & Hlen).
        assert (all_modules ds <> []) as Hne
          by (intro E0; subst n; rewrite E0 in Hnz; apply Hnz; reflexivity).
        apply Hlen in Hne. fold n in Hne. lia.
      * apply update_measured_data_Err in E. subst. reflexivity.
Qed.

Lemma for_each_app {X} (body : nat -> SE X nat) (a b : list X) :
  forall i,
    for_each body i (a ++ b)
    = match for_each body i a with
      | (Ok i', a') =>
          let (r, b') := for_each body i' b in (r, a' ++ b')
      | (Err e, a') => (Err e, a' ++ b)
      end.
Proof.
  induction a as [|x a IH]; intro i; simpl.
  - destruct (for_each body i b). reflexivity.
  - destruct (body i x) as [[i'|e] x']; [|reflexivity].
    rewrite IH. destruct (for_each body i' a) as [[i2|e] a'].
    + destruct (for_each body i2 b). reflexivity.
    + reflexivity.
Qed.

(** The two nested loops do what one loop over all the modules does. *)
Lemma for_each_devices_flat ms es ds :
  forall i,
    fst (for_each (update_device ms es) i ds)
    = fst (for_each (update_module ms es) i (all_modules ds)) /\
    all_modules (snd (for_each (update_device ms es) i ds))
    = snd (for_each (update_module ms es) i (all_modules ds)).
Proof.
  unfold all_modules.
  induction ds as [|d rest IH]; intro i; simpl; [split; reflexivity|].
  rewrite for_each_app. unfold update_device at 1. unfold update_device at 2.
  destruct (for_each (update_module ms es) i (modules d)) as [[i'|e] l'].
  - specialize (IH i').
    destruct (for_each (update_device ms es) i' rest) as [r rest'].
    destruct (for_each (update_module ms es) i' (flat_map modules rest))
      as [r2 l2].
    simpl in *. destruct IH as [-> ->]. split; reflexivity.
  - simpl. split; reflexivity.
Qed.

Lemma getitem_out {A} (l : list A) (i : nat) :
  List.length l <= i -> getitem l i = Err IndexError.
Proof.
  intro H. unfold getitem.
  destruct (nth_error l i) eqn:E; [|reflexivity].
  assert (i < List.length l) by (apply nth_error_Some; congruence). lia.
Qed.

(** What the loop body has written to a module when it raises: the four
    fields are written in the order temperature, setpoint temperature, gas
    heating usage, gas water usage, each after its list entry has been
    read, so the writes made are those before the first missing entry. *)
Definition partial_writes (ms es : list (list MeasurementItem)) (i : nat)
    (m m' : Module_) : Prop :=
  let new_t :=
    _get_measurement_value (nth i ms []) (temperature (measured m)) in
  let new_s :=
    _get_measurement_value (nth (i + 1) ms [])
      (setpoint_temp (measured m)) in
  let new_h :=
    _get_energy_measurement_value (nth i es [])
      (gas_heating_usage (measured m)) in
  (List.length ms <= i -> m' = m) /\
  (List.length ms = i + 1 ->
   measured m'
   = mkMeasured new_t (setpoint_temp (measured m))
       (gas_heating_usage (measured m)) (gas_water_usage (measured m))) /\
  (i + 2 <= List.length ms -> List.length es <= i ->
   measured m'
   = mkMeasured new_t new_s
       (gas_heating_usage (measured m)) (gas_water_usage (measured m))) /\
  (i + 2 <= List.length ms -> List.length es = i + 1 ->
   measured m'
   = mkMeasured new_t new_s new_h (gas_water_usage (measured m))).

Lemma update_module_partial ms es i m :
  partial_writes ms es i m (snd (update_module ms es i m)).
Proof.
  unfold partial_writes. cbv zeta. unfold update_module. unfold_se.
  split; [|split; [|split]].
  - intro H. rewrite (getitem_out ms i) by lia. reflexivity.
  - intro H. rewrite (getitem_nth ms i []) by lia.
    rewrite (getitem_out ms (i + 1)) by lia. reflexivity.
  - intros Hm He. rewrite (getitem_nth ms i []) by lia.
    rewrite (getitem_nth ms (i + 1) []) by lia.
    rewrite (getitem_out es i) by lia. reflexivity.
  - intros Hm He. rewrite (getitem_nth ms i []) by lia.
    rewrite (getitem_nth ms (i + 1) []) by lia.
    rewrite (getitem_nth es i []) by lia.
    rewrite (getitem_out es (i + 1)) by lia. reflexivity.
Qed.

(** X5. A merge that raises has stopped at the first module for which a
    list index is out of range: the modules before it are merged in full,
    the modules after it are untouched, and the module itself keeps the
    writes made before the raise, which are those of [partial_writes]:
    nothing when the measurements list has no entry for it, the temperature
    alone when it has one entry, both temperatures when only the energy list
    is short, and the gas heating usage too when the energy list is short
    by one entry. *)
Theorem merge_stops_at_first_missing_entry ds ms es l1 m l2 :
  all_modules ds = l1 ++ m :: l2 ->
  2 * List.length l1 <= List.length ms ->
  2 * List.length l1 <= List.length es ->
  List.length ms < 2 * List.length l1 + 2 \/
  List.length es < 2 * List.length l1 + 2 ->
  exists m',
    fst (_update_measured_data ds ms es) = Err IndexError /\
    all_modules (snd (_update_measured_data ds ms es))
    = merged_modules ms es 0 l1 ++ m' :: l2 /\
    m' = snd (update_module ms es (2 * List.length l1) m) /\
    module_frame m' = module_frame m /\
    partial_writes ms es (2 * List.length l1) m m'.
Proof.
  intros Hall Hm He Hshort.
  set (i := 2 * List.length l1) in *.
  assert (exists m', update_module ms es i m = (Err IndexError, m')) as Hfail.
  { destruct (update_module ms es i m) as [[j|e] m'] eqn:E.
    - apply update_module_Ok in E. lia.
    - apply update_module_Err in E. subst. eauto. }
  destruct Hfail as (m' & Hfail).
  assert (for_each (update_module ms es) 0 (all_modules ds)
          = (Err IndexError, merged_modules ms es 0 l1 ++ m' :: l2)) as Hflat.
  { rewrite Hall, for_each_app.
    rewrite for_each_modules_in_range by (simpl; lia).
    change (0 + 2 * List.length l1) with i.
    cbn [for_each]. rewrite Hfail. reflexivity. }
  destruct (for_each_devices_flat ms es ds 0) as [Hr Hl].
  rewrite Hflat in Hr, Hl. simpl in Hr, Hl.
  exists m'.
  assert (m' = snd (update_module ms es i m)) as Em
    by (rewrite Hfail; reflexivity).
  unfold _update_measured_data.
  destruct (for_each (update_device ms es) 0 ds) as [r ds'].
  simpl in *. subst r.
  split; [reflexivity|]. split; [exact Hl|]. split; [exact Em|].
  split; rewrite Em.
  - apply update_module_frame.
  - apply update_module_partial.
Qed.

(** The energy list is one entry short for the sample module: both
    temperatures and the gas heating usage are written before the merge
    raises, the gas water usage is not. *)
Lemma merge_stops_at_first_missing_entry_witness :
  exists m',
    fst (_update_measured_data [sample_device] sample_measurements_full
           [[mkMeasurementItem [f250; f300]]]) = Err IndexError /\
    all_modules
      (snd (_update_measured_data [sample_device] sample_measurements_full
              [[mkMeasurementItem [f250; f300]]]))
    = [m'] /\
    measured m' = mkMeasured f21 f20_5 [f250; f300] [f100].
Proof.
  destruct (merge_stops_at_first_missing_entry [sample_device]
              sample_measurements_full [[mkMeasurementItem [f250; f300]]]
              [] sample_module [] eq_refl)
    as (m' & Hr & Hl & _ & _ & _ & _ & _ & Hp).
  - simpl. lia.
  - simpl. lia.
  - right. simpl. lia.
  - exists m'. split; [exact Hr|]. split; [exact Hl|].
    apply Hp; simpl; lia.
Defined.

(** ** Gas usage lists stay non-empty *)

Lemma get_energy_measurement_value_empty l d :
  _get_energy_measurement_value l d = [] -> d = [] /\ no_new_sample l.
Proof.
  destruct l as [|m0 l0]; [intro H; split; [exact H|left; reflexivity]|].
  assert (m0 :: l0 <> []) as Hne by discriminate.
  destruct (exists_last Hne) as (l1 & item & E). rewrite E.
  unfold _get_energy_measurement_value. rewrite last_item_snoc.
  destruct (value item) eqn:Ev.
  - intro H. split; [exact H|]. right. exists l1, item. split; [reflexivity|exact Ev].
  - discriminate.
Qed.

(** X6. The merge never empties a gas usage list: after a merge that does
    not raise, the gas heating (gas water) usage of a module is empty only
    if it was empty before and its fetched list brought no new sample. *)
Theorem merge_keeps_gas_usage_non_empty ms es ds ds' k m m' :
  _update_measured_data ds ms es = (Ok tt, ds') ->
  nth_error (all_modules ds) k = Some m ->
  nth_error (all_modules ds') k = Some m' ->
  (gas_heating_usage (measured m') = [] ->
   gas_heating_usage (measured m) = [] /\
   no_new_sample (nth (2 * k) es [])) /\
  (gas_water_usage (measured m') = [] ->
   gas_water_usage (measured m) = [] /\
   no_new_sample (nth (2 * k + 1) es [])).
Proof.
  intros H Hk Hk'.
  destruct (merged_module_at _ _ _ _ _ _ H Hk) as (Hm' & _).
  rewrite Hk' in Hm'. inversion Hm'; subst m'. cbn [merged_module measured
    gas_heating_usage gas_water_usage].
  split; apply get_energy_measurement_value_empty.
Qed.

Lemma merge_keeps_gas_usage_non_empty_witness :
  (gas_heating_usage (measured sample_merged_module) = [] ->
   gas_heating_usage (measured sample_module) = [] /\
   no_new_sample (nth (2 * 0) sample_energy_usage [])) /\
  (gas_water_usage (measured sample_merged_module) = [] ->
   gas_water_usage (measured sample_module) = [] /\
   no_new_sample (nth (2 * 0 + 1) sample_energy_usage [])).
Proof.
  apply (merge_keeps_gas_usage_non_empty sample_measurements
           sample_energy_usage [sample_device]
           [mkDevice "d1" "NAVaillant" [sample_merged_module]] 0
           sample_module sample_merged_module); reflexivity.
Defined.

(** * Further properties of the lookup tables *)

Lemma dict_lookup_set {V} (k : string) (v : V) (d : dict V) (k' : string) :
  dict_lookup (dict_set k v d) k'
  = if String.eqb k k' then Some v else dict_lookup d k'.
Proof.
  induction d as [|[k0 v0] rest IH]; simpl; [reflexivity|].
  destruct (String.eqb_spec k0 k) as [->|Hne]; simpl.
  - destruct (String.eqb k k'); reflexivity.
  - rewrite IH.
    destruct (String.eqb_spec k0 k') as [->|Hne'];
      destruct (String.eqb_spec k k') as [->|Hne2];
      try reflexivity; congruence.
Qed.

Lemma dict_lookup_app {V} (a b : dict V) (k : string) :
  dict_lookup (a ++ b) k
  = match dict_lookup a k with
    | Some v => Some v
    | None => dict_lookup b k
    end.
Proof.
  induction a as [|[k0 v0] rest IH]; simpl; [reflexivity|].
  destruct (String.eqb k0 k); [reflexivity|exact IH].
Qed.

Lemma dict_lookup_fold {V} (kvs : list (string * V)) (k : string) :
  forall acc,
    dict_lookup
      (fold_left (fun d kv => dict_set (fst kv) (snd kv) d) kvs acc) k
    = match dict_lookup (rev kvs) k with
      | Some v => Some v
      | None => dict_lookup acc k
      end.
Proof.
  induction kvs as [|[k0 v0] rest IH]; intro acc; simpl; [reflexivity|].
  rewrite IH, dict_lookup_app, dict_lookup_set. simpl.
  destruct (dict_lookup (rev rest) k); [reflexivity|].
  destruct (String.eqb k0 k); reflexivity.
Qed.

Lemma dict_lookup_keyed {V} (key : V -> string) (l : list V) (k : string) :
  dict_lookup (map (fun x => (key x, x)) l) k
  = find (fun x => String.eqb (key x) k) l.
Proof.
  induction l as [|x rest IH]; simpl; [reflexivity|].
  destruct (String.eqb (key x) k); [reflexivity|exact IH].
Qed.

(** In any comprehension the last object with a key is the one kept. *)
Lemma dict_comprehension_lookup {V} (key : V -> string) (l : list V)
    (k : string) :
  dict_lookup (dict_comprehension (map (fun x => (key x, x)) l)) k
  = find (fun x => String.eqb (key x) k) (rev l).
Proof.
  unfold dict_comprehension. rewrite dict_lookup_fold. simpl.
  rewrite <- map_rev, dict_lookup_keyed.
  destruct (find _ (rev l)); reflexivity.
Qed.

Lemma dict_set_keys {V} (k : string) (v : V) (d : dict V) (k' : string) :
  In k' (map fst (dict_set k v d)) <-> k' = k \/ In k' (map fst d).
Proof.
  induction d as [|[k0 v0] rest IH]; simpl.
  - split; intros [H|H]; auto.
  - destruct (String.eqb_spec k0 k) as [->|Hne]; simpl.
    + split; [intros [H|H]; auto|intros [H|[H|H]]; auto].
    + rewrite IH. split; [intros [H|[H|H]]; auto|intros [H|[H|H]]; auto].
Qed.

Lemma dict_set_NoDup {V} (k : string) (v : V) (d : dict V) :
  NoDup (map fst d) -> NoDup (map fst (dict_set k v d)).
Proof.
  induction d as [|[k0 v0] rest IH]; simpl; intro H.
  - constructor; [intros []|constructor].
  - inversion H as [|? ? Hnotin Hrest]; subst.
    destruct (String.eqb_spec k0 k) as [->|Hne]; simpl.
    + constructor; assumption.
    + constructor; [|apply IH; exact Hrest].
      rewrite dict_set_keys. intros [E|Hin]; [congruence|contradiction].
Qed.

Lemma dict_comprehension_NoDup {V} (kvs : list (string * V)) :
  NoDup (map fst (dict_comprehension kvs)).
Proof.
  unfold dict_comprehension.
  assert (forall acc,
            NoDup (map fst acc) ->
            NoDup (map fst (fold_left
                              (fun d kv => dict_set (fst kv) (snd kv) d)
                              kvs acc))) as H.
  { induction kvs as [|kv rest IH]; intros acc Hacc; simpl; [exact Hacc|].
    apply IH, dict_set_NoDup, Hacc. }
  apply H. constructor.
Qed.

(** X7. For any device list, ids repeated or not, every table of
    [VaillantData] has each key once, and a key is looked up to the last
    object of the tree (in device, module, program order) that has this id;
    so every id of the tree is a key. *)
Theorem lookup_tables_keep_last_of_each_id client ds :
  NoDup (map fst (vd_devices (VaillantData_init client ds))) /\
  NoDup (map fst (vd_modules (VaillantData_init client ds))) /\
  NoDup (map fst (vd_programs (VaillantData_init client ds))) /\
  (forall k,
     dict_lookup (vd_devices (VaillantData_init client ds)) k
     = find (fun d => String.eqb (device_id d) k) (rev ds)) /\
  (forall k,
     dict_lookup (vd_modules (VaillantData_init client ds)) k
     = find (fun m => String.eqb (module_id m) k) (rev (all_modules ds))) /\
  (forall k,
     dict_lookup (vd_programs (VaillantData_init client ds)) k
     = find (fun p => String.eqb (program_id p) k) (rev (all_programs ds))).
Proof.
  unfold VaillantData_init. simpl.
  repeat (split; [apply dict_comprehension_NoDup|]).
  repeat split; intro k; apply dict_comprehension_lookup.
Qed.

(** * Further properties of the poll cycle *)

(** X8. [_update_method] returns data exactly when no call of the cycle
    raises, and what it raises always comes from a call that raised:
    [ConfigEntryAuthFailed] for [RequestUnauthorizedException],
    [UpdateFailed] for another [ApiException], and any other exception as it
    is. In particular it never raises [IndexError] of its own. *)
Theorem poll_outcome_follows_the_calls w st :
  match fst (_update_method w st) with
  | Ok _ => forall e, ~ raised_in_cycle w st (snd (_update_method w st)) e
  | Err x =>
      exists e,
        raised_in_cycle w st (snd (_update_method w st)) e /\ x = surfaced e
  end.
Proof.
  rewrite update_method_cases. cbv zeta.
  set (p := List.length (requests st)).
  destruct (async_get_thermostats_data (_client w) p) as [ds|e] eqn:Hth.
  - set (tr := temperature_requests w (S p) ds).
    destruct (gather (first_raised w) (answers (_client w) (S p) tr))
      as [ms|e] eqn:Gt.
    + set (er := energy_requests w (S p + List.length tr) ds).
      destruct (gather (first_raised w)
                  (answers (_client w) (S p + List.length tr) er))
        as [es|e] eqn:Ge.
      * simpl. intro e.
        exact (none_raised_when_gathered w st ds ms es e Hth Gt Ge).
      * rewrite on_exception_surfaced. simpl. exists e. split; [|reflexivity].
        apply gather_Err, In_answers in Ge.
        destruct Ge as (j & rq & Hj & He).
        apply (raised_by_measure w st (tr ++ er) (List.length tr + j) rq e).
        -- rewrite nth_error_app2 by lia.
           replace (List.length tr + j - List.length tr) with j by lia.
           exact Hj.
        -- fold p. rewrite He. f_equal. lia.
    + rewrite on_exception_surfaced. simpl. exists e. split; [|reflexivity].
      apply gather_Err, In_answers in Gt.
      destruct Gt as (j & rq & Hj & He).
      apply (raised_by_measure w st tr j rq e Hj).
      fold p. rewrite He. reflexivity.
  - rewrite on_exception_surfaced. simpl. exists e. split; [|reflexivity].
    exists 0, GetThermostatsData. fold p.
    replace (p + 0) with p by lia. split.
    + cbn [requests add_calls]. rewrite nth_error_app2 by (subst p; lia).
      replace (p - List.length (requests st)) with 0 by (subst p; lia).
      reflexivity.
    + simpl. rewrite Hth. reflexivity.
Qed.

(** X9. A poll cycle does not look at the data of earlier cycles: what it
    returns or raises and the calls it makes are the same whatever
    [coordinator.data] holds. The value a field falls back to is the one of
    the device list fetched in this cycle. *)
Theorem poll_ignores_previous_data w data1 data2 log :
  fst (_update_method w (mkState data1 log))
  = fst (_update_method w (mkState data2 log)) /\
  requests (snd (_update_method w (mkState data1 log)))
  = requests (snd (_update_method w (mkState data2 log))).
Proof.
  rewrite !update_method_cases. cbv zeta. simpl requests.
  destruct (async_get_thermostats_data _ _) as [ds|e];
    [|rewrite !on_exception_surfaced; split; reflexivity].
  destruct (gather _ (answers _ _ (temperature_requests _ _ _))) as [ms|e];
    [|rewrite !on_exception_surfaced; split; reflexivity].
  destruct (gather _ (answers _ _ (energy_requests _ _ _))) as [es|e];
    [|rewrite !on_exception_surfaced; split; reflexivity].
  split; reflexivity.
Qed.

Lemma no_modules_no_requests t1 t2 sc start ds :
  all_modules ds = [] -> measure_requests t1 t2 sc start ds = [].
Proof.
  intro H. apply length_zero_iff_nil.
  rewrite length_measure_requests, H. reflexivity.
Qed.

Lemma merged_devices_no_modules ms es ds :
  all_modules ds = [] -> forall i, merged_devices ms es i ds = ds.
Proof.
  unfold all_modules.
  induction ds as [|d rest IH]; intros H i; simpl in *; [reflexivity|].
  apply app_eq_nil in H. destruct H as [Hd Hrest].
  rewrite IH by exact Hrest. rewrite Hd. simpl.
  destruct d as [a b c]. simpl in Hd. subst c. reflexivity.
Qed.

(** X10. When the fetched device list has no module (it is empty, or no
    device has modules), the cycle makes the device list call and no other,
    and returns the tables of the devices as fetched. *)
Theorem poll_without_modules w st ds :
  async_get_thermostats_data (_client w) (List.length (requests st)) = Ok ds ->
  all_modules ds = [] ->
  _update_method w st
  = (Ok (VaillantData_init (_client w) ds),
     add_calls st [GetThermostatsData]).
Proof.
  intros Hth Hn. rewrite update_method_cases. cbv zeta. rewrite Hth.
  unfold temperature_requests, energy_requests.
  rewrite !(no_modules_no_requests _ _ _ _ ds Hn). simpl.
  rewrite merged_devices_no_modules by exact Hn. reflexivity.
Qed.

Definition bare_client : ThermostatClient :=
  mkClient (fun _ => Ok [mkDevice "d1" "NAVaillant" []])
    (fun _ _ => Err (OtherException "not reached")).

Lemma poll_without_modules_witness :
  _update_method (mkWorld bare_client (fun _ => 0%Z) 0) sample_state
  = (Ok (VaillantData_init bare_client [mkDevice "d1" "NAVaillant" []]),
     mkState None [GetThermostatsData]).
Proof.
  apply (poll_without_modules (mkWorld bare_client (fun _ => 0%Z) 0)
           sample_state [mkDevice "d1" "NAVaillant" []]); reflexivity.
Defined.

(** ** The requests of the two fetch functions *)

Lemma measure_requests_In t1 t2 sc start ds r :
  In r (measure_requests t1 t2 sc start ds) ->
  req_scale r = sc /\ req_start_time r = start /\
  (req_type r = t1 \/ req_type r = t2) /\
  exists d m,
    In d ds /\ In m (modules d) /\
    req_device_id r = device_id d /\ req_module_id r = module_id m.
Proof.
  unfold measure_requests. intro H.
  apply in_flat_map in H. destruct H as (d & Hd & H).
  apply in_flat_map in H. destruct H as (m & Hm & H).
  destruct H as [<-|[<-|Hf]]; [| |destruct Hf]; simpl;
    (repeat split; auto; exists d, m; auto).
Qed.

(** The requests that one fetch function makes, and what it returns: the
    log grows by the requests [rs] and by nothing else; [rs] has two
    entries per module, and for the module at position [k] of the loops
    these are, at [2 * k] and [2 * k + 1], its request of type [t1] and its
    request of type [t2]; a list that is returned has the answers in the
    order of the requests. *)
Definition fetch_makes (w : World) (ds : list Device) (st : State)
    (out : Res (list (list MeasurementItem)) * State)
    (t1 t2 : MeasurementType) (sc : MeasurementScale) (start : Z) : Prop :=
  exists rs,
    requests (snd out) = requests st ++ map GetMeasure rs /\
    coordinator_data (snd out) = coordinator_data st /\
    List.length rs = 2 * List.length (all_modules ds) /\
    (forall k d m,
       nth_error (device_modules ds) k = Some (d, m) ->
       nth_error rs (2 * k)
       = Some (mkRequest (device_id d) (module_id m) t1 sc start) /\
       nth_error rs (2 * k + 1)
       = Some (mkRequest (device_id d) (module_id m) t2 sc start)) /\
    (forall r,
       In r rs ->
       req_scale r = sc /\ req_start_time r = start /\
       (req_type r = t1 \/ req_type r = t2) /\
       exists d m,
         In d ds /\ In m (modules d) /\
         req_device_id r = device_id d /\ req_module_id r = module_id m) /\
    (forall l,
       fst out = Ok l ->
       List.length l = List.length rs /\
       forall j r,
         nth_error rs j = Some r ->
         exists t,
           nth_error l j = Some t /\
           async_get_measure (_client w) (List.length (requests st) + j) r
           = Ok t).

Lemma fetch_makes_requests w ds st t1 t2 sc start :
  fetch_makes w ds st
    (gather (first_raised w)
       (answers (_client w) (List.length (requests st))
          (measure_requests t1 t2 sc start ds)),
     add_calls st (map GetMeasure (measure_requests t1 t2 sc start ds)))
    t1 t2 sc start.
Proof.
  exists (measure_requests t1 t2 sc start ds). simpl.
  split; [reflexivity|]. split; [reflexivity|].
  split; [apply length_measure_requests|].
  split; [intros k d m Hk; apply nth_error_measure_requests; exact Hk|].
  split; [intros r Hr; apply measure_requests_In; exact Hr|].
  intros l Hl. split.
  - apply gather_Ok_length in Hl. rewrite length_answers in Hl. exact Hl.
  - intros j r Hj. exact (gathered_answer _ _ _ _ _ _ _ Hl Hj).
Qed.

(** X11. [_get_temperature_measurements_for_all_devices] makes, whether
    the gather raises or not, exactly two requests per module and nothing
    else: for the module at position [k], in device then module order, the
    request at [2 * k] is its temperature request and the one at
    [2 * k + 1] its setpoint temperature request, both at scale [MAX] and
    from one hour before the clock reading taken when the function starts;
    a list that is returned has the answers in the order of the requests. *)
Theorem temperature_fetch_requests w ds st :
  fetch_makes w ds st (_get_temperature_measurements_for_all_devices w ds st)
    TEMPERATURE SETPOINT_TEMPERATURE MAX
    (datetime_now w (List.length (requests st)) - 3600000000)%Z.
Proof.
  rewrite get_temperature_measurements_spec. apply fetch_makes_requests.
Qed.

(** X12. [_get_energy_usage_measurements_for_all_devices] makes, whether
    the gather raises or not, exactly two requests per module and nothing
    else: for the module at position [k], in device then module order, the
    request at [2 * k] is its gas heating energy request and the one at
    [2 * k + 1] its gas water energy request, both at scale [DAY] and from
    seven days before the clock reading taken when the function starts; a
    list that is returned has the answers in the order of the requests. *)
Theorem energy_fetch_requests w ds st :
  fetch_makes w ds st (_get_energy_usage_measurements_for_all_devices w ds st)
    SUM_ENERGY_GAS_HEATING SUM_ENERGY_GAS_WATER DAY
    (datetime_now w (List.length (requests st)) - 604800000000)%Z.
Proof.
  rewrite get_energy_usage_measurements_spec. apply fetch_makes_requests.
Qed.

(** * Further properties of the entities *)

Lemma In_dict_set {V} (k : string) (v : V) (d : dict V) (x : string * V) :
  In x (dict_set k v d) -> x = (k, v) \/ In x d.
Proof.
  induction d as [|[k0 v0] rest IH]; simpl.
  - intros [H|H]; auto.
  - destruct (String.eqb_spec k0 k) as [->|Hne]; simpl.
    + intros [H|H]; auto.
    + intros [H|H]; auto. apply IH in H. tauto.
Qed.

Lemma In_dict_comprehension {V} (kvs : list (string * V)) (x : string * V) :
  In x (dict_comprehension kvs) -> In x kvs.
Proof.
  unfold dict_comprehension.
  assert (forall acc,
            In x (fold_left (fun d kv => dict_set (fst kv) (snd kv) d) kvs acc)
            -> In x kvs \/ In x acc) as H.
  { induction kvs as [|[k v] rest IH]; intros acc Hin; simpl in *.
    - right. exact Hin.
    - apply IH in Hin. destruct Hin as [Hin|Hin]; [tauto|].
      apply In_dict_set in Hin. destruct Hin as [->|Hin]; auto. }
  intro Hin. apply H in Hin. destruct Hin as [Hin|[]]. exact Hin.
Qed.

Lemma find_by_id {V} (key : V -> string) (l : list V) (x : V) :
  In x l ->
  exists y,
    find (fun z => String.eqb (key z) (key x)) l = Some y /\ key y = key x.
Proof.
  intro Hin.
  destruct (find (fun z => String.eqb (key z) (key x)) l) as [y|] eqn:E.
  - exists y. split; [reflexivity|].
    apply find_some in E. apply String.eqb_eq. apply E.
  - apply (find_none _ _ E) in Hin. rewrite String.eqb_refl in Hin.
    discriminate.
Qed.

Lemma In_device_modules ds d m :
  In (d, m) (device_modules ds) <-> In d ds /\ In m (modules d).
Proof.
  unfold device_modules. rewrite in_flat_map. split.
  - intros (d0 & Hd & Hin). apply in_map_iff in Hin.
    destruct Hin as (m0 & E & Hm). inversion E; subst. auto.
  - intros (Hd & Hm). exists d. split; [exact Hd|].
    apply in_map_iff. exists m. auto.
Qed.

(** X13. On data built by [VaillantData.__init__] from any device list,
    every entity that setup creates can be read: it has no program id, so
    [_program] is [None]; [_device] returns a device with the device id of
    the entity and [_module] a module with its module id, without
    [KeyError]. *)
Theorem setup_entities_resolve client ds st new_devices self :
  coordinator_data st = Some (VaillantData_init client ds) ->
  fst (async_setup_entry st) = Ok new_devices ->
  In self new_devices ->
  VaillantEntity._program self st = (Ok None, st) /\
  exists d m,
    VaillantEntity._device self st = (Ok d, st) /\
    device_id d = _device_id self /\
    VaillantEntity._module self st = (Ok m, st) /\
    module_id m = _module_id self.
Proof.
  intros H Hsetup Hin.
  unfold async_setup_entry, bind in Hsetup.
  rewrite !(sensors_of_ready _ st _ H) in Hsetup. unfold ret in Hsetup.
  simpl in Hsetup. inversion Hsetup; subst new_devices; clear Hsetup.
  assert (exists c d0 m0,
            In (d0, m0)
              (device_modules
                 (dict_values
                    (dict_comprehension
                       (map (fun device => (device_id device, device)) ds))))
            /\ self = mkEntity c (device_id d0) (module_id m0) None)
    as (c & d0 & m0 & Hpair & ->).
  { rewrite !in_app_iff, !in_map_iff in Hin.
    destruct Hin as [[([d0 m0] & E & Hp)|([d0 m0] & E & Hp)]
                    |([d0 m0] & E & Hp)];
      eexists; exists d0, m0; (split; [exact Hp|symmetry; exact E]). }
  apply In_device_modules in Hpair. destruct Hpair as [Hd0 Hm0].
  unfold dict_values in Hd0. apply in_map_iff in Hd0.
  destruct Hd0 as ([k0 d1] & E & Hkv). simpl in E. subst d1.
  apply In_dict_comprehension in Hkv. apply in_map_iff in Hkv.
  destruct Hkv as (d1 & E & Hds). inversion E; subst d1 k0; clear E.
  assert (In m0 (all_modules ds)) as Hall
    by (unfold all_modules; apply in_flat_map; exists d0; auto).
  destruct (find_by_id device_id (rev ds) d0) as (d & Fd & Ed);
    [apply in_rev in Hds; exact Hds|].
  destruct (find_by_id module_id (rev (all_modules ds)) m0) as (m & Fm & Em);
    [apply in_rev in Hall; exact Hall|].
  split; [reflexivity|]. exists d, m. simpl.
  split; [|split; [exact Ed|split; [|exact Em]]].
  - apply (device_ready _ st _ d H). simpl.
    rewrite dict_comprehension_lookup. exact Fd.
  - apply (module_ready _ st _ m H). simpl.
    rewrite dict_comprehension_lookup. exact Fm.
Qed.

Lemma setup_entities_resolve_witness :
  VaillantEntity._program sample_battery sample_ready_state
  = (Ok None, sample_ready_state) /\
  exists d m,
    VaillantEntity._device sample_battery sample_ready_state
    = (Ok d, sample_ready_state) /\
    device_id d = _device_id sample_battery /\
    VaillantEntity._module sample_battery sample_ready_state
    = (Ok m, sample_ready_state) /\
    module_id m = _module_id sample_battery.
Proof.
  apply (setup_entities_resolve sample_client
           [mkDevice "d1" "NAVaillant" [sample_merged_module]]
           sample_ready_state
           [mkEntity BatterySensor "d1" "m1" None;
            mkEntity GasWaterSensor "d1" "m1" None;
            mkEntity GasHeatingSensor "d1" "m1" None] sample_battery).
  - reflexivity.
  - reflexivity.
  - left. reflexivity.
Defined.

(** ** Reads that raise *)

Lemma module_missing self st vd :
  coordinator_data st = Some vd ->
  dict_lookup (vd_modules vd) (_module_id self) = None ->
  VaillantEntity._module self st = (Err (KeyError (_module_id self)), st).
Proof.
  intros H Hm. unfold VaillantEntity._module, bind.
  rewrite (data_ready st vd H). unfold lift, dict_get. rewrite Hm.
  reflexivity.
Qed.

Lemma device_missing self st vd :
  coordinator_data st = Some vd ->
  dict_lookup (vd_devices vd) (_device_id self) = None ->
  VaillantEntity._device self st = (Err (KeyError (_device_id self)), st).
Proof.
  intros H Hd. unfold VaillantEntity._device, bind.
  rewrite (data_ready st vd H). unfold lift, dict_get. rewrite Hd.
  reflexivity.
Qed.

Ltac unfold_properties :=
  unfold VaillantEntity._client, VaillantEntity.device_info,
    VaillantBatterySensor.unique_id, VaillantBatterySensor.name,
    VaillantBatterySensor.native_value,
    VaillantGasWaterSensor.unique_id, VaillantGasWaterSensor.name,
    VaillantGasWaterSensor.native_value,
    VaillantGasWaterSensor.extra_state_attributes,
    VaillantGasHeatingSensor.unique_id, VaillantGasHeatingSensor.name,
    VaillantGasHeatingSensor.native_value,
    VaillantGasHeatingSensor.extra_state_attributes, bind.

(** Every property that starts by reading [_module] raises [e] in [st]. *)
Definition module_properties_raise (DOMAIN : string)
    (str_float : float -> string) (self : Entity) (st : State) (e : exn)
    : Prop :=
  VaillantEntity._module self st = (Err e, st) /\
  VaillantEntity.device_info DOMAIN self st = (Err e, st) /\
  VaillantBatterySensor.unique_id self st = (Err e, st) /\
  VaillantBatterySensor.name self st = (Err e, st) /\
  VaillantBatterySensor.native_value self st = (Err e, st) /\
  VaillantGasWaterSensor.unique_id self st = (Err e, st) /\
  VaillantGasWaterSensor.name self st = (Err e, st) /\
  VaillantGasWaterSensor.native_value str_float self st = (Err e, st) /\
  VaillantGasWaterSensor.extra_state_attributes str_float self st
  = (Err e, st) /\
  VaillantGasHeatingSensor.unique_id self st = (Err e, st) /\
  VaillantGasHeatingSensor.name self st = (Err e, st) /\
  VaillantGasHeatingSensor.native_value str_float self st = (Err e, st) /\
  VaillantGasHeatingSensor.extra_state_attributes str_float self st
  = (Err e, st).

Lemma module_properties_raise_intro DOMAIN str_float self st e :
  VaillantEntity._module self st = (Err e, st) ->
  module_properties_raise DOMAIN str_float self st e.
Proof.
  intro Rm. unfold module_properties_raise. unfold_properties.
  rewrite !Rm. repeat split; reflexivity.
Qed.

(** X14. Before the first successful refresh, when [coordinator.data] is
    [None], every read of the data raises [AttributeError] and changes
    nothing: [_client], [_device], [_module], every property that goes
    through [_module], and setup, which creates no entity. [_program] still
    returns [None] for an entity without program id. *)
Theorem reads_without_data_raise DOMAIN str_float self st :
  coordinator_data st = None ->
  VaillantEntity._client self st = (Err AttributeError, st) /\
  VaillantEntity._device self st = (Err AttributeError, st) /\
  module_properties_raise DOMAIN str_float self st AttributeError /\
  VaillantEntity._program self st
  = (match _program_id self with
     | None => Ok None
     | Some _ => Err AttributeError
     end, st) /\
  async_setup_entry st = (Err AttributeError, st).
Proof.
  intro H. pose proof (data_missing st H) as Hd.
  split; [unfold VaillantEntity._client, bind; rewrite Hd; reflexivity|].
  split; [unfold VaillantEntity._device, bind; rewrite Hd; reflexivity|].
  split.
  { apply module_properties_raise_intro.
    unfold VaillantEntity._module, bind. rewrite Hd. reflexivity. }
  split.
  { unfold VaillantEntity._program. destruct (_program_id self);
      [unfold bind; rewrite Hd|]; reflexivity. }
  unfold async_setup_entry, sensors_of, bind. rewrite Hd. reflexivity.
Qed.

Lemma reads_without_data_raise_witness :
  VaillantBatterySensor.native_value sample_battery sample_state
  = (Err AttributeError, sample_state) /\
  VaillantEntity._program sample_battery sample_state
  = (Ok None, sample_state) /\
  async_setup_entry sample_state = (Err AttributeError, sample_state).
Proof.
  destruct (reads_without_data_raise "vaillant_vsmart" sample_str_float
              sample_battery sample_state eq_refl)
    as (_ & _ & Hm & Hp & Hs).
  destruct Hm as (_ & _ & _ & _ & Hb & _).
  split; [exact Hb|]. split; [exact Hp|exact Hs].
Defined.

(** X15. With data in place, an id that is not in its table gives
    [KeyError] with that id and changes nothing: a missing module id for
    [_module] and every property that goes through it, [device_info]
    included, even when the device id is missing too; a missing device id
    for [_device], and for [device_info] when the module is there; a missing
    program id for [_program]. *)
Theorem reads_of_missing_ids_raise DOMAIN str_float self st vd :
  coordinator_data st = Some vd ->
  (dict_lookup (vd_modules vd) (_module_id self) = None ->
   module_properties_raise DOMAIN str_float self st
     (KeyError (_module_id self))) /\
  (dict_lookup (vd_devices vd) (_device_id self) = None ->
   VaillantEntity._device self st = (Err (KeyError (_device_id self)), st) /\
   forall m,
     dict_lookup (vd_modules vd) (_module_id self) = Some m ->
     VaillantEntity.device_info DOMAIN self st
     = (Err (KeyError (_device_id self)), st)) /\
  (forall pid,
     _program_id self = Some pid ->
     dict_lookup (vd_programs vd) pid = None ->
     VaillantEntity._program self st = (Err (KeyError pid), st)).
Proof.
  intro H. split; [|split].
  - intro Hm. apply module_properties_raise_intro.
    exact (module_missing self st vd H Hm).
  - intro Hd. pose proof (device_missing self st vd H Hd) as Rd.
    split; [exact Rd|]. intros m Hm.
    pose proof (module_ready self st vd m H Hm) as Rm.
    unfold VaillantEntity.device_info, bind. rewrite !Rm, Rd. reflexivity.
  - intros pid Hp Hl. unfold VaillantEntity._program. rewrite Hp.
    unfold bind. rewrite (data_ready st vd H). unfold lift, dict_get.
    rewrite Hl. reflexivity.
Qed.

Definition stray_entity : Entity :=
  mkEntity GasWaterSensor "d9" "m9" (Some "p9").

Lemma reads_of_missing_ids_raise_witness :
  VaillantGasWaterSensor.native_value sample_str_float stray_entity
    sample_ready_state = (Err (KeyError "m9"), sample_ready_state) /\
  VaillantEntity.device_info "vaillant_vsmart" stray_entity sample_ready_state
  = (Err (KeyError "m9"), sample_ready_state) /\
  VaillantEntity._device stray_entity sample_ready_state
  = (Err (KeyError "d9"), sample_ready_state) /\
  VaillantEntity._program stray_entity sample_ready_state
  = (Err (KeyError "p9"), sample_ready_state).
Proof.
  destruct (reads_of_missing_ids_raise "vaillant_vsmart" sample_str_float
              stray_entity sample_ready_state sample_data eq_refl)
    as (Hm & Hd & Hp).
  destruct (Hm eq_refl) as (_ & Hi & _ & _ & _ & _ & _ & Hw & _).
  destruct (Hd eq_refl) as (Hdev & _).
  split; [exact Hw|]. split; [exact Hi|]. split; [exact Hdev|].
  exact (Hp "p9" eq_refl eq_refl).
Defined.

(** ** Unique ids *)







(** ** From the poll to the sensors *)

Lemma merged_modules_ids ms es l :
  forall i, map module_id (merged_modules ms es i l) = map module_id l.
Proof.
  induction l as [|m rest IH]; intro i; simpl; [reflexivity|].
  rewrite IH. reflexivity.
Qed.

(** With distinct module ids, the module table of the data that a cycle
    returns has, under the id of the module at position [k], that module as
    merged. *)
Lemma merged_module_in_table client ms es ds k m :
  NoDup (map module_id (all_modules ds)) ->
  nth_error (all_modules ds) k = Some m ->
  dict_lookup
    (vd_modules (VaillantData_init client (merged_devices ms es 0 ds)))
    (module_id m)
  = Some (merged_module ms es (2 * k) m).
Proof.
  intros Hnd Hk. unfold VaillantData_init. simpl.
  rewrite all_modules_merged_devices.
  assert (NoDup (map fst (map (fun x => (module_id x, x))
                            (merged_modules ms es 0 (all_modules ds)))))
    as Hkeys by (rewrite keyed_list_keys, merged_modules_ids; exact Hnd).
  rewrite dict_comprehension_distinct by exact Hkeys.
  apply (dict_lookup_distinct _ _ _ Hkeys).
  apply keyed_list_spec. split; [|reflexivity].
  apply (nth_error_In _ k).
  rewrite nth_error_merged_modules, Hk. reflexivity.
Qed.

(** X17. After a cycle that returns, with the module ids of the fetched
    list pairwise distinct and the returned data in [coordinator.data], the
    sensors of a module show what the cycle fetched for it: the battery
    sensor the battery percentage of the device list call, and each gas
    sensor the last value of the latest item answered to the module's own
    gas request, when that item has values. *)
Theorem sensors_show_what_the_poll_fetched
    w st data st' str_float ds k d m st2 self :
  _update_method w st = (Ok data, st') ->
  async_get_thermostats_data (_client w) (List.length (requests st)) = Ok ds ->
  NoDup (map module_id (all_modules ds)) ->
  nth_error (device_modules ds) k = Some (d, m) ->
  coordinator_data st2 = Some data ->
  _module_id self = module_id m ->
  let p := List.length (requests st) in
  let n := List.length (all_modules ds) in
  let start_e := (datetime_now w (S p + 2 * n) - 604800000000)%Z in
  VaillantBatterySensor.native_value self st2
  = (Ok (str_int (battery_percent m)), st2) /\
  (forall h vs dflt,
     async_get_measure (_client w) (S p + 2 * n + 2 * k)
       (mkRequest (device_id d) (module_id m) SUM_ENERGY_GAS_HEATING DAY
          start_e) = Ok h ->
     latest_values h vs ->
     VaillantGasHeatingSensor.native_value str_float self st2
     = (Ok (str_float (last vs dflt)), st2)) /\
  (forall g vs dflt,
     async_get_measure (_client w) (S p + 2 * n + (2 * k + 1))
       (mkRequest (device_id d) (module_id m) SUM_ENERGY_GAS_WATER DAY
          start_e) = Ok g ->
     latest_values g vs ->
     VaillantGasWaterSensor.native_value str_float self st2
     = (Ok (str_float (last vs dflt)), st2)).
Proof.
  intros H Hth Hnd Hk Hdata Hid p n start_e.
  rewrite update_method_cases in H. cbv zeta in H. rewrite Hth in H.
  fold p in H.
  set (tr := temperature_requests w (S p) ds) in *.
  assert (List.length tr = 2 * n) as Ltr by apply length_measure_requests.
  rewrite Ltr in H.
  set (er := energy_requests w (S p + 2 * n) ds) in *.
  destruct (gather (first_raised w) (answers (_client w) (S p) tr))
    as [ms|e] eqn:Gt;
    [|rewrite on_exception_surfaced in H; discriminate H].
  destruct (gather (first_raised w) (answers (_client w) (S p + 2 * n) er))
    as [es|e] eqn:Ge;
    [|rewrite on_exception_surfaced in H; discriminate H].
  pose proof (f_equal fst H) as Hd. cbn [fst] in Hd.
  injection Hd as Hd. subst data. clear H.
  assert (nth_error (all_modules ds) k = Some m) as Hm
    by (rewrite all_modules_pairs, nth_error_map, Hk; reflexivity).
  pose proof (merged_module_in_table (_client w) ms es ds k m Hnd Hm) as Hl.
  rewrite <- Hid in Hl.
  pose proof (module_ready self st2 _ _ Hdata Hl) as Rm.
  destruct (nth_error_measure_requests SUM_ENERGY_GAS_HEATING
              SUM_ENERGY_GAS_WATER DAY
              (datetime_now w (S p + 2 * n) - timedelta_days_7)%Z ds k d m Hk)
    as [Rh Rg].
  destruct (gathered_answer _ _ _ _ _ _ _ Ge Rh) as (h0 & Nh & Ah).
  destruct (gathered_answer _ _ _ _ _ _ _ Ge Rg) as (g0 & Ng & Ag).
  split; [|split].
  - unfold VaillantBatterySensor.native_value, bind. rewrite Rm. reflexivity.
  - intros h vs dflt Hans Hvs.
    unfold start_e in Hans. change 604800000000%Z with timedelta_days_7 in Hans.
    rewrite Hans in Ah. injection Ah as <-.
    unfold VaillantGasHeatingSensor.native_value, bind. rewrite !Rm.
    unfold lift. cbn [merged_module measured gas_heating_usage].
    rewrite (nth_error_nth _ _ [] Nh).
    rewrite (get_energy_measurement_value_latest h _ vs Hvs).
    destruct Hvs as (_ & _ & _ & _ & Hne).
    rewrite (str_last_of_nonempty str_float vs dflt Hne). reflexivity.
  - intros g vs dflt Hans Hvs.
    unfold start_e in Hans. change 604800000000%Z with timedelta_days_7 in Hans.
    rewrite Hans in Ag. injection Ag as <-.
    unfold VaillantGasWaterSensor.native_value, bind. rewrite !Rm.
    unfold lift. cbn [merged_module measured gas_water_usage].
    rewrite (nth_error_nth _ _ [] Ng).
    rewrite (get_energy_measurement_value_latest g _ vs Hvs).
    destruct Hvs as (_ & _ & _ & _ & Hne).
    rewrite (str_last_of_nonempty str_float vs dflt Hne). reflexivity.
Qed.

Lemma sensors_show_what_the_poll_fetched_witness :
  VaillantBatterySensor.native_value sample_gas_water sample_ready_state
  = (Ok "87", sample_ready_state) /\
  VaillantGasHeatingSensor.native_value sample_str_float sample_gas_water
    sample_ready_state = (Ok "300.0", sample_ready_state).
Proof.
  destruct (sensors_show_what_the_poll_fetched sample_world sample_state
              sample_data
              (mkState None
                 (GetThermostatsData
                  :: sample_temperature_calls ++ sample_energy_calls))
              sample_str_float [sample_device] 0 sample_device sample_module
              sample_ready_state sample_gas_water)
    as (Hb & Hh & _); try reflexivity.
  - repeat constructor. simpl. tauto.
  - split; [exact Hb|].
    apply (Hh [mkMeasurementItem [f250; f300]] [f250; f300] f19).
    + reflexivity.
    + exists [], (mkMeasurementItem [f250; f300]).
      repeat split. discriminate.
Defined.

(** * The measured values over a poll cycle *)

(** A cycle that returns: what it fetched, what it returns and its log. *)
Lemma update_method_returns w st data st' :
  _update_method w st = (Ok data, st') ->
  exists ds ms es,
    let p := List.length (requests st) in
    let n := List.length (all_modules ds) in
    let tr := temperature_requests w (S p) ds in
    let er := energy_requests w (S p + 2 * n) ds in
    async_get_thermostats_data (_client w) p = Ok ds /\
    gather (first_raised w) (answers (_client w) (S p) tr) = Ok ms /\
    gather (first_raised w) (answers (_client w) (S p + 2 * n) er) = Ok es /\
    data = VaillantData_init (_client w) (merged_devices ms es 0 ds) /\
    requests st'
    = requests st ++ GetThermostatsData :: map GetMeasure (tr ++ er).
Proof.
  intro H. rewrite update_method_cases in H. cbv zeta in H.
  set (p := List.length (requests st)) in *.
  destruct (async_get_thermostats_data (_client w) p) as [ds|e] eqn:Hth;
    [|rewrite on_exception_surfaced in H; discriminate H].
  set (tr := temperature_requests w (S p) ds) in *.
  assert (List.length tr = 2 * List.length (all_modules ds)) as Ltr
    by apply length_measure_requests.
  rewrite Ltr in H.
  destruct (gather (first_raised w) (answers (_client w) (S p) tr))
    as [ms|e] eqn:Gt;
    [|rewrite on_exception_surfaced in H; discriminate H].
  destruct (gather (first_raised w)
              (answers (_client w) (S p + 2 * List.length (all_modules ds))
                 (energy_requests w
                    (S p + 2 * List.length (all_modules ds)) ds)))
    as [es|e] eqn:Ge;
    [|rewrite on_exception_surfaced in H; discriminate H].
  exists ds, ms, es. cbv zeta. fold tr.
  pose proof (f_equal fst H) as Hd. pose proof (f_equal snd H) as Hs.
  cbn [fst snd] in Hd, Hs. injection Hd as Hd. subst data st'.
  repeat split; assumption || reflexivity.
Qed.

(** The four lists gathered for the module at position [k], and the calls
    that they answer. *)
Lemma gathered_for_module w (old : list Call) ds ms es k d m :
  let p := List.length old in
  let n := List.length (all_modules ds) in
  let start_t := (datetime_now w (S p) - timedelta_hours_1)%Z in
  let start_e := (datetime_now w (S p + 2 * n) - timedelta_days_7)%Z in
  let tr := temperature_requests w (S p) ds in
  let er := energy_requests w (S p + 2 * n) ds in
  let log := old ++ GetThermostatsData :: map GetMeasure (tr ++ er) in
  gather (first_raised w) (answers (_client w) (S p) tr) = Ok ms ->
  gather (first_raised w) (answers (_client w) (S p + 2 * n) er) = Ok es ->
  nth_error (device_modules ds) k = Some (d, m) ->
  exists t s h g,
    nth_error ms (2 * k) = Some t /\
    nth_error ms (2 * k + 1) = Some s /\
    nth_error es (2 * k) = Some h /\
    nth_error es (2 * k + 1) = Some g /\
    answered w log (S p + 2 * k)
      (mkRequest (device_id d) (module_id m) TEMPERATURE MAX start_t) t /\
    answered w log (S p + (2 * k + 1))
      (mkRequest (device_id d) (module_id m) SETPOINT_TEMPERATURE MAX start_t)
      s /\
    answered w log (S p + 2 * n + 2 * k)
      (mkRequest (device_id d) (module_id m) SUM_ENERGY_GAS_HEATING DAY
         start_e) h /\
    answered w log (S p + 2 * n + (2 * k + 1))
      (mkRequest (device_id d) (module_id m) SUM_ENERGY_GAS_WATER DAY start_e)
      g.
Proof.
  intros p n start_t start_e tr er log Gt Ge Hk.
  assert (List.length tr = 2 * n) as Ltr by apply length_measure_requests.
  destruct (nth_error_measure_requests TEMPERATURE SETPOINT_TEMPERATURE MAX
              start_t ds k d m Hk) as [Rt Rs].
  destruct (nth_error_measure_requests SUM_ENERGY_GAS_HEATING
              SUM_ENERGY_GAS_WATER DAY start_e ds k d m Hk) as [Rh Rg].
  fold tr in Rt, Rs. fold er in Rh, Rg.
  destruct (gathered_answer _ _ _ _ _ _ _ Gt Rt) as (t & Nt & At).
  destruct (gathered_answer _ _ _ _ _ _ _ Gt Rs) as (s & Ns & As).
  destruct (gathered_answer _ _ _ _ _ _ _ Ge Rh) as (h & Nh & Ah).
  destruct (gathered_answer _ _ _ _ _ _ _ Ge Rg) as (g & Ng & Ag).
  exists t, s, h, g.
  assert (forall j r, nth_error (tr ++ er) j = Some r ->
            nth_error log (S p + j) = Some (GetMeasure r)) as Hlog
    by (intros j r Hj; apply nth_error_cycle_log; exact Hj).
  assert (forall j r, nth_error tr j = Some r ->
            nth_error (tr ++ er) j = Some r) as Hl.
  { intros j r Hj. rewrite nth_error_app1; [exact Hj|].
    apply nth_error_Some. congruence. }
  assert (forall j r, nth_error er j = Some r ->
            nth_error (tr ++ er) (2 * n + j) = Some r) as Hr.
  { intros j r Hj. rewrite nth_error_app2 by lia.
    replace (2 * n + j - List.length tr) with j by lia. exact Hj. }
  unfold answered.
  repeat split; try assumption.
  - apply Hlog, Hl, Rt.
  - apply Hlog, Hl, Rs.
  - replace (S p + 2 * n + 2 * k) with (S p + (2 * n + 2 * k)) by lia.
    apply Hlog, Hr, Rh.
  - replace (S p + 2 * n + (2 * k + 1)) with (S p + (2 * n + (2 * k + 1)))
      by lia.
    apply Hlog, Hr, Rg.
Qed.

(** C1, as the code has it. In every poll cycle that returns, for every
    module [m] of the device list [ds] fetched in this cycle, with [t], [s],
    [h], [g] the answers to the module's own four requests: each measured
    value of the module in the returned data is overwritten from the latest
    measurement item of its list, with the last value of that item for the
    two temperatures and with its whole value list for the two gas usages;
    when no new sample came for a field (its list is empty or the value list
    of its last item is empty) the field is left equal to the value it has
    in [ds], the device list fetched in this same cycle. *)
Theorem poll_overwrites_or_keeps_fetched w st data st' :
  _update_method w st = (Ok data, st') ->
  exists ds ds',
    let p := List.length (requests st) in
    let n := List.length (all_modules ds) in
    let start_t := (datetime_now w (S p) - timedelta_hours_1)%Z in
    let start_e := (datetime_now w (S p + 2 * n) - timedelta_days_7)%Z in
    async_get_thermostats_data (_client w) p = Ok ds /\
    data = VaillantData_init (_client w) ds' /\
    forall k d m,
      nth_error (device_modules ds) k = Some (d, m) ->
      exists m' t s h g,
        nth_error (all_modules ds') k = Some m' /\
        answered w (requests st') (S p + 2 * k)
          (mkRequest (device_id d) (module_id m) TEMPERATURE MAX start_t) t /\
        answered w (requests st') (S p + (2 * k + 1))
          (mkRequest (device_id d) (module_id m) SETPOINT_TEMPERATURE MAX
             start_t) s /\
        answered w (requests st') (S p + 2 * n + 2 * k)
          (mkRequest (device_id d) (module_id m) SUM_ENERGY_GAS_HEATING DAY
             start_e) h /\
        answered w (requests st') (S p + 2 * n + (2 * k + 1))
          (mkRequest (device_id d) (module_id m) SUM_ENERGY_GAS_WATER DAY
             start_e) g /\
        overwritten_or_kept t s h g m m'.
Proof.
  intro H.
  destruct (update_method_returns w st data st' H)
    as (ds & ms & es & Hth & Gt & Ge & Hdata & Hlog).
  exists ds, (merged_devices ms es 0 ds). cbv zeta.
  split; [exact Hth|]. split; [exact Hdata|].
  intros k d m Hk.
  destruct (gathered_for_module w (requests st) ds ms es k d m Gt Ge Hk)
    as (t & s & h & g & Nt & Ns & Nh & Ng & At & As & Ah & Ag).
  assert (nth_error (all_modules ds) k = Some m) as Hm
    by (rewrite all_modules_pairs, nth_error_map, Hk; reflexivity).
  exists (merged_module ms es (2 * k) m), t, s, h, g.
  rewrite Hlog.
  split.
  { rewrite all_modules_merged_devices, nth_error_merged_modules, Hm.
    reflexivity. }
  repeat (split; [assumption|]).
  unfold overwritten_or_kept, merged_module.
  cbn [measured temperature setpoint_temp gas_heating_usage gas_water_usage].
  rewrite (nth_error_nth _ _ [] Nt), (nth_error_nth _ _ [] Ns),
    (nth_error_nth _ _ [] Nh), (nth_error_nth _ _ [] Ng).
  repeat split; intros;
    auto using get_measurement_value_keep, get_measurement_value_latest,
      get_energy_measurement_value_keep, get_energy_measurement_value_latest.
Qed.

Lemma poll_overwrites_or_keeps_fetched_witness :
  exists ds ds',
    let p := List.length (requests sample_state) in
    let n := List.length (all_modules ds) in
    let start_t := (datetime_now sample_world (S p) - timedelta_hours_1)%Z in
    let start_e :=
      (datetime_now sample_world (S p + 2 * n) - timedelta_days_7)%Z in
    async_get_thermostats_data (_client sample_world) p = Ok ds /\
    sample_data = VaillantData_init (_client sample_world) ds' /\
    forall k d m,
      nth_error (device_modules ds) k = Some (d, m) ->
      exists m' t s h g,
        nth_error (all_modules ds') k = Some m' /\
        answered sample_world (requests sample_ready_state) (S p + 2 * k)
          (mkRequest (device_id d) (module_id m) TEMPERATURE MAX start_t) t /\
        answered sample_world (requests sample_ready_state)
          (S p + (2 * k + 1))
          (mkRequest (device_id d) (module_id m) SETPOINT_TEMPERATURE MAX
             start_t) s /\
        answered sample_world (requests sample_ready_state)
          (S p + 2 * n + 2 * k)
          (mkRequest (device_id d) (module_id m) SUM_ENERGY_GAS_HEATING DAY
             start_e) h /\
        answered sample_world (requests sample_ready_state)
          (S p + 2 * n + (2 * k + 1))
          (mkRequest (device_id d) (module_id m) SUM_ENERGY_GAS_WATER DAY
             start_e) g /\
        overwritten_or_kept t s h g m m'.
Proof.
  apply (poll_overwrites_or_keeps_fetched sample_world sample_state
           sample_data
           (mkState None
              (GetThermostatsData
               :: sample_temperature_calls ++ sample_energy_calls))).
  reflexivity.
Defined.

(** A client whose device list call always reports the sample device, with
    temperature 19, and whose measurement requests bring samples in the
    first cycle (calls 1 to 4) and nothing afterwards. *)
Definition fading_client : ThermostatClient :=
  mkClient
    (fun _ => Ok [sample_device])
    (fun pos r =>
       if Nat.ltb pos 5 then
         match req_type r with
         | TEMPERATURE => Ok [mkMeasurementItem [f20_5; f21]]
         | SETPOINT_TEMPERATURE => Ok []
         | SUM_ENERGY_GAS_HEATING => Ok [mkMeasurementItem [f250; f300]]
         | SUM_ENERGY_GAS_WATER => Ok [mkMeasurementItem []]
         end
       else Ok []).

Definition fading_world : World :=
  mkWorld fading_client (fun _ => 1700000000000000%Z) 0.

(** C1, as it is stated, fails twice over two cycles of [fading_world], the
    second starting with the data of the first in [coordinator.data]. In
    the first cycle the latest sample fetched for the gas heating usage is
    300 and the field becomes the list of 250 and 300. In the second cycle
    no temperature sample is returned, and the temperature is not left at
    21, its value after the first cycle, but is 19, the value in the device
    list fetched in the second cycle. *)
Lemma fallback_is_the_fetched_value :
  exists data1 st1 data2 st2 m1 m2,
    _update_method fading_world sample_state = (Ok data1, st1) /\
    _update_method fading_world (mkState (Some data1) (requests st1))
    = (Ok data2, st2) /\
    dict_lookup (vd_modules data1) "m1" = Some m1 /\
    dict_lookup (vd_modules data2) "m1" = Some m2 /\
    answered fading_world (requests st1) 3
      (mkRequest "d1" "m1" SUM_ENERGY_GAS_HEATING DAY 1699395200000000)
      [mkMeasurementItem [f250; f300]] /\
    latest_value [mkMeasurementItem [f250; f300]] f300 /\
    gas_heating_usage (measured m1) = [f250; f300] /\
    gas_heating_usage (measured m1) <> [f300] /\
    temperature (measured m1) = f21 /\
    answered fading_world (requests st2) 6
      (mkRequest "d1" "m1" TEMPERATURE MAX 1699996400000000) [] /\
    no_new_sample [] /\
    temperature (measured m2) = f19 /\
    temperature (measured m2) <> temperature (measured m1).
Proof.
  exists (VaillantData_init fading_client
            [mkDevice "d1" "NAVaillant" [sample_merged_module]]).
  exists (mkState None
            (GetThermostatsData
             :: sample_temperature_calls ++ sample_energy_calls)).
  exists (VaillantData_init fading_client
            [mkDevice "d1" "NAVaillant" [sample_module]]).
  eexists. exists sample_merged_module, sample_module.
  split; [reflexivity|]. split; [reflexivity|].
  split; [reflexivity|]. split; [reflexivity|].
  split; [split; reflexivity|].
  split; [exists [f250], [], (mkMeasurementItem [f250; f300]);
          repeat split; discriminate|].
  split; [reflexivity|]. split; [discriminate|]. split; [reflexivity|].
  split; [split; reflexivity|].
  split; [left; reflexivity|]. split; [reflexivity|]. discriminate.
Qed.
